(** * vault67: the analysis-and-aggregation pipeline

    A shallow embedding of [vault67_agent]: the finding schema
    ([models/schemas.py]), the structural analyzer
    ([analyzer/ast_analyzer.py]), the two tool-output normalizers
    ([analyzer/mypy_analyzer.py], [analyzer/ruff_analyzer.py]) and the
    summary and recommendation builders of [cli.py].

    Python [int] is [Z]; a [len(...)] is a [nat]; [str] is [string];
    [Optional[T]] is [option T]; a [Counter] or [dict] is a [gmap], a
    [set] a [gset].  Results of the standard library that the code
    only consumes ([ast.parse], [json.loads], [subprocess.run]) enter
    the functions as values of an outcome type. *)

From Stdlib Require Import ZArith String Ascii List Lia Permutation.
From stdpp Require Import base gmap sets list strings pretty sorting.

#[local] Set Warnings "-register-all".
Local Open Scope Z_scope.

(** ** models/schemas.py *)

Module Schemas.

Inductive Severity := CRITICAL | HIGH | MEDIUM | LOW | INFO.

Inductive FindingType :=
  | STYLE | TYPE_ERROR | COMPLEXITY | SECURITY
  | PERFORMANCE | MAINTAINABILITY | BUG | CODE_SMELL.

Inductive Priority := P_URGENT | P_HIGH | P_MEDIUM | P_LOW.

Global Instance Severity_eq_dec : EqDecision Severity.
Proof. solve_decision. Defined.
Global Instance FindingType_eq_dec : EqDecision FindingType.
Proof. solve_decision. Defined.
Global Instance Priority_eq_dec : EqDecision Priority.
Proof. solve_decision. Defined.

(** The enums key dictionaries ([Counter[Severity]]), so they are
    countable: each member is numbered in declaration order. *)
Definition Severity_index (s : Severity) : nat :=
  match s with CRITICAL => 0 | HIGH => 1 | MEDIUM => 2 | LOW => 3 | INFO => 4 end%nat.
Definition Severity_at (n : nat) : Severity :=
  match n with 0 => CRITICAL | 1 => HIGH | 2 => MEDIUM | 3 => LOW | _ => INFO end%nat.
Global Instance Severity_countable : Countable Severity :=
  inj_countable' Severity_index Severity_at ltac:(by intros []).

Definition FindingType_index (t : FindingType) : nat :=
  match t with
  | STYLE => 0 | TYPE_ERROR => 1 | COMPLEXITY => 2 | SECURITY => 3
  | PERFORMANCE => 4 | MAINTAINABILITY => 5 | BUG => 6 | CODE_SMELL => 7
  end%nat.
Definition FindingType_at (n : nat) : FindingType :=
  match n with
  | 0 => STYLE | 1 => TYPE_ERROR | 2 => COMPLEXITY | 3 => SECURITY
  | 4 => PERFORMANCE | 5 => MAINTAINABILITY | 6 => BUG | _ => CODE_SMELL
  end%nat.
Global Instance FindingType_countable : Countable FindingType :=
  inj_countable' FindingType_index FindingType_at ltac:(by intros []).

Record Location := mkLocation {
  file : string;
  line : option Z;
  column : option Z;
  end_line : option Z;
  function : option string
}.

Record Finding := mkFinding {
  type : FindingType;
  severity : Severity;
  location : Location;
  message : string;
  rule_id : option string;
  fix_available : bool
}.

Record Recommendation := mkRecommendation {
  priority : Priority;
  category : string;
  action : string;
  rationale : string;
  impact : string;
  effort : option string;
  related_findings : list string
}.

Record AnalysisSummary := mkAnalysisSummary {
  total_files : nat;
  python_files : nat;
  total_findings : nat;
  findings_by_severity : gmap Severity nat;
  findings_by_type : gmap FindingType nat;
  total_recommendations : nat
}.

Record GitMetrics := mkGitMetrics {
  total_commits : Z;
  total_contributors : Z;
  hot_spots : list string;
  large_files : list string;
  last_commit_date : option string
}.

End Schemas.

Export Schemas.

(** ** The syntax tree of Python's [ast] module, as the analyzer reads it *)

Module PyAst.

(** The class of a node none of whose attributes the analyzer reads.
    [OtherNode] stands for every class not listed ([Return], [Name],
    [Call], [Match], ...). *)
Inductive kind :=
  | Module_ | If | For | AsyncFor | While | With | AsyncWith
  | Try | ExceptHandler | IfExp | Lambda | comprehension | OtherNode.

Global Instance kind_eq_dec : EqDecision kind.
Proof. solve_decision. Defined.

Inductive boolop := And | Or.

(** [lineno], [col_offset], [end_lineno] and [name] of a definition. *)
Record def_header := mkHeader {
  name : string;
  lineno : Z;
  col_offset : Z;
  end_lineno : option Z
}.

(** A node with its child nodes in the order of [ast.iter_child_nodes]
    (the order of the class's [_fields]).
    - [BoolOp op values]: the [op] child is a leaf without fields.
    - [arguments posonlyargs args rest]: [rest] is [vararg],
      [kwonlyargs], [kw_defaults], [kwarg], [defaults].
    - [FunctionDef h posonlyargs args argrest body rest]: the three
      lists are the fields of [node.args]; [rest] is [decorator_list],
      [returns], [type_params].
    - [ClassDef h heads body rest]: [heads] is [bases], [keywords];
      [rest] is [decorator_list], [type_params]. *)
Inductive node : Type :=
  | Node (k : kind) (children : list node)
  | BoolOp (op : boolop) (values : list node)
  | arguments (posonlyargs args rest : list node)
  | FunctionDef (h : def_header) (posonlyargs args argrest body rest : list node)
  | AsyncFunctionDef (h : def_header) (posonlyargs args argrest body rest : list node)
  | ClassDef (h : def_header) (heads body rest : list node).

(** [ast.iter_child_nodes] *)
Definition iter_child_nodes (n : node) : list node :=
  match n with
  | Node _ children => children
  | BoolOp _ values => values
  | arguments po a r => po ++ a ++ r
  | FunctionDef _ po a r body rest => arguments po a r :: body ++ rest
  | AsyncFunctionDef _ po a r body rest => arguments po a r :: body ++ rest
  | ClassDef _ heads body rest => heads ++ body ++ rest
  end.

(** Every node of the subtree of [n], [n] first (depth-first). *)
Fixpoint subnodes (n : node) : list node :=
  n :: match n with
       | Node _ children => flat_map subnodes children
       | BoolOp _ values => flat_map subnodes values
       | arguments po a r =>
           flat_map subnodes po ++ flat_map subnodes a ++ flat_map subnodes r
       | FunctionDef _ po a r body rest
       | AsyncFunctionDef _ po a r body rest =>
           (arguments po a r ::
              flat_map subnodes po ++ flat_map subnodes a ++ flat_map subnodes r)
           ++ flat_map subnodes body ++ flat_map subnodes rest
       | ClassDef _ heads body rest =>
           flat_map subnodes heads ++ flat_map subnodes body ++ flat_map subnodes rest
       end.

Definition node_count (n : node) : nat := length (subnodes n).

(** [ast.walk]: a queue that starts as [[node]]; each step pops the
    first node, appends its children to the queue and yields it.  One
    unit of fuel is one iteration of the [while todo] loop. *)
Fixpoint walk_todo (fuel : nat) (todo : list node) : list node :=
  match fuel, todo with
  | S fuel', n :: q => n :: walk_todo fuel' (q ++ iter_child_nodes n)
  | _, _ => []
  end.

Definition walk (tree : node) : list node := walk_todo (node_count tree) [tree].

End PyAst.

Export PyAst.

(** ** analyzer/ast_analyzer.py *)

Module AstAnalyzer.

(** [str(n)] for an [int]. *)
Definition str_int (n : Z) : string := pretty n.
Definition str_len (n : nat) : string := pretty n.

(** *** ComplexityVisitor

    The visitor's state is its [complexity] attribute, threaded through
    the calls.  [visit] dispatches on the node's class to [visit_If],
    [visit_For], [visit_While], [visit_ExceptHandler], [visit_With],
    [visit_BoolOp] and to [generic_visit] for every other class; each
    [visit_X] adds to the counter and then calls [generic_visit], which
    visits the children in order. *)
Fixpoint visit (n : node) (complexity : Z) {struct n} : Z :=
  let generic := fun (children : list node) (c : Z) =>
    foldl (fun c child => visit child c) c children in
  match n with
  | Node If children => generic children (complexity + 1)
  | Node For children => generic children (complexity + 1)
  | Node While children => generic children (complexity + 1)
  | Node ExceptHandler children => generic children (complexity + 1)
  | Node With children => generic children (complexity + 1)
  | BoolOp _ values =>
      generic values (complexity + (Z.of_nat (length values) - 1))
  | Node _ children => generic children complexity
  | arguments po a r => generic r (generic a (generic po complexity))
  | FunctionDef _ po a r body rest
  | AsyncFunctionDef _ po a r body rest =>
      generic rest (generic body (generic r (generic a (generic po complexity))))
  | ClassDef _ heads body rest =>
      generic rest (generic body (generic heads complexity))
  end.

(** [generic_visit] *)
Definition generic_visit (n : node) (complexity : Z) : Z :=
  foldl (fun c child => visit child c) complexity (iter_child_nodes n).

(** [visitor = ComplexityVisitor(); visitor.visit(node); visitor.complexity] *)
Definition function_complexity (fn : node) : Z := visit fn 1.

(** *** The metric as the specification words it

    Base 1, plus one per [if], [for], [while], exception handler and
    [with] found anywhere in the function's subtree, plus
    (operand count - 1) per boolean expression. *)

Definition is_kind (k : kind) (n : node) : bool :=
  match n with
  | Node k' _ => bool_decide (k' = k)
  | _ => false
  end.

(** How many nodes of class [k] the subtree of [fn] holds. *)
Definition count_kind (k : kind) (fn : node) : Z :=
  Z.of_nat (length (List.filter (is_kind k) (subnodes fn))).

Definition sumZ (l : list Z) : Z := foldr Z.add 0 l.

(** [operand_count - 1] for a boolean expression, 0 for another node. *)
Definition boolop_extra (n : node) : Z :=
  match n with
  | BoolOp _ values => Z.of_nat (length values) - 1
  | _ => 0
  end.

Definition boolop_total (fn : node) : Z :=
  sumZ (map boolop_extra (subnodes fn)).

Definition spec_complexity (fn : node) : Z :=
  1 + count_kind If fn + count_kind For fn + count_kind While fn
    + count_kind ExceptHandler fn + count_kind With fn + boolop_total fn.

(** What visiting one node adds to the counter, its children apart. *)
Definition own_increment (n : node) : Z :=
  match n with
  | Node If _ | Node For _ | Node While _ | Node ExceptHandler _ | Node With _ => 1
  | BoolOp _ values => Z.of_nat (length values) - 1
  | _ => 0
  end.

Definition subtree_total (n : node) : Z :=
  sumZ (map own_increment (subnodes n)).

Definition forest_total (l : list node) : Z :=
  sumZ (map own_increment (flat_map subnodes l)).

(** *** ASTAnalyzer *)

(** [complexity_threshold: int = 10] of [ASTAnalyzer.__init__] *)
Definition default_complexity_threshold : Z := 10.

Section ASTAnalyzer.

(** [self.complexity_threshold] *)
Variable complexity_threshold : Z.

(** [_analyze_function(node, file_path)] for
    [node = FunctionDef h posonlyargs args argrest body rest];
    [file_path] is [str(file_path)]. *)
Definition _analyze_function (file_path : string)
    (h : def_header) (posonlyargs args argrest body rest : list node)
    : list Finding :=
  let node := FunctionDef h posonlyargs args argrest body rest in
  let findings : list Finding := [] in
  let complexity := function_complexity node in
  let findings :=
    if complexity_threshold <? complexity then
      let severity :=
        if complexity_threshold * 2 <? complexity then HIGH else MEDIUM in
      findings ++ [mkFinding COMPLEXITY severity
        (mkLocation file_path (Some (lineno h)) (Some (col_offset h)) None
           (Some (name h)))
        ("Function '" +:+ name h +:+ "' has high cyclomatic complexity ("
           +:+ str_int complexity +:+ ")")
        (Some "AST100") false]
    else findings in
  let arg_count := length args in
  let findings :=
    if (7 <? arg_count)%nat then
      findings ++ [mkFinding CODE_SMELL MEDIUM
        (mkLocation file_path (Some (lineno h)) (Some (col_offset h)) None
           (Some (name h)))
        ("Function '" +:+ name h +:+ "' has too many arguments ("
           +:+ str_len arg_count +:+ ")")
        (Some "AST101") false]
    else findings in
  match end_lineno h with
  | Some end_ =>
      if end_ =? 0 then findings
      else
        let func_length := end_ - lineno h in
        if 50 <? func_length then
          findings ++ [mkFinding MAINTAINABILITY LOW
            (mkLocation file_path (Some (lineno h)) (Some (col_offset h))
               (Some end_) (Some (name h)))
            ("Function '" +:+ name h +:+ "' is very long ("
               +:+ str_int func_length +:+ " lines)")
            (Some "AST102") false]
        else findings
  | None => findings
  end.

(** The finding of rule AST100 for a function of header [h] and
    complexity [c]. *)
Definition complexity_finding (file_path : string)
    (h : def_header) (c : Z) : Finding :=
  mkFinding COMPLEXITY (if complexity_threshold * 2 <? c then HIGH else MEDIUM)
    (mkLocation file_path (Some (lineno h)) (Some (col_offset h)) None
       (Some (name h)))
    ("Function '" +:+ name h +:+ "' has high cyclomatic complexity ("
       +:+ str_int c +:+ ")")
    (Some "AST100") false.

(** [isinstance(n, ast.FunctionDef)] *)
Definition is_FunctionDef (n : node) : bool :=
  match n with FunctionDef _ _ _ _ _ _ => true | _ => false end.

Definition is_AsyncFunctionDef (n : node) : bool :=
  match n with AsyncFunctionDef _ _ _ _ _ _ => true | _ => false end.

Definition is_ClassDef (n : node) : bool :=
  match n with ClassDef _ _ _ _ => true | _ => false end.

(** [_analyze_class(node, file_path)] for [node = ClassDef h heads body rest] *)
Definition _analyze_class (file_path : string)
    (h : def_header) (heads body rest : list node) : list Finding :=
  let methods := List.filter is_FunctionDef body in
  if (20 <? length methods)%nat then
    [mkFinding CODE_SMELL MEDIUM
       (mkLocation file_path (Some (lineno h)) (Some (col_offset h)) None None)
       ("Class '" +:+ name h +:+ "' has too many methods ("
          +:+ str_len (length methods) +:+ "). " +:+ "Consider splitting it.")
       (Some "AST200") false]
  else [].

(** The body of the loop of [_analyze_tree] for one node of the walk. *)
Definition analyze_node (file_path : string) (n : node) : list Finding :=
  match n with
  | FunctionDef h po a r body rest => _analyze_function file_path h po a r body rest
  | ClassDef h heads body rest => _analyze_class file_path h heads body rest
  | _ => []
  end.

(** [_analyze_tree(tree, file_path)] *)
Definition _analyze_tree (tree : node) (file_path : string) : list Finding :=
  flat_map (analyze_node file_path) (walk tree).

(** What the [try] block of [analyze_file] met: [open], [read] and
    [ast.parse] returned a tree, or the block raised.  [SyntaxError]
    carries [e.lineno], [e.offset] and [e.msg]; any other [Exception]
    carries [str(e)]. *)
Inductive parse_outcome :=
  | Parsed (tree : node)
  | SyntaxError (e_lineno e_offset : option Z) (e_msg : string)
  | OtherException (str_e : string).

(** [x or 0] for an [Optional[int]] *)
Definition or_0 (x : option Z) : Z :=
  match x with
  | Some v => if v =? 0 then 0 else v
  | None => 0
  end.

(** [analyze_file(file_path)]; the file's content enters as the outcome
    of reading and parsing it. *)
Definition analyze_file (file_path : string) (r : parse_outcome) : list Finding :=
  let findings : list Finding := [] in
  match r with
  | Parsed tree => findings ++ _analyze_tree tree file_path
  | SyntaxError e_lineno e_offset e_msg =>
      findings ++ [mkFinding BUG CRITICAL
        (mkLocation file_path (Some (or_0 e_lineno)) (Some (or_0 e_offset)) None None)
        ("Syntax error: " +:+ e_msg)
        (Some "AST001") false]
  | OtherException str_e =>
      findings ++ [mkFinding BUG HIGH
        (mkLocation file_path None None None None)
        ("Failed to analyze file: " +:+ str_e)
        (Some "AST000") false]
  end.

(** A file that [directory.rglob("*.py")] yields: its path as text,
    the parts of the path, and what reading and parsing it does. *)
Record py_file := mkPyFile {
  path : string;
  parts : list string;
  outcome : parse_outcome
}.

Definition excluded_parts : list string :=
  ["__pycache__"; "venv"; "env"; ".venv"; "node_modules"].

(** The two [continue] tests of the loop of [analyze_directory]. *)
Definition skipped (f : py_file) : bool :=
  existsb (String.prefix ".") (parts f)
  || existsb (fun part => bool_decide (part ∈ excluded_parts)) (parts f).

(** [analyze_directory(directory, complexity_threshold)], given the
    files that the directory holds. *)
Definition analyze_directory (py_files : list py_file) : list Finding :=
  flat_map (fun f => if skipped f then [] else analyze_file (path f) (outcome f))
    py_files.

End ASTAnalyzer.

End AstAnalyzer.

(** ** Exceptions *)

(** The classes of the exceptions the modelled code can raise. *)
Inductive exn :=
  | AttributeError | TypeError | ValueError | ValidationError | RecursionError.

Inductive result (A : Type) :=
  | Ok (a : A)
  | Raise (e : exn).
Arguments Ok {A} a.
Arguments Raise {A} e.

(** Statements in sequence: an exception skips what follows. *)
Global Instance result_bind : MBind result := fun A B f r =>
  match r with
  | Ok a => f a
  | Raise e => Raise e
  end.

(** A loop body run over a list; the first exception ends the loop. *)
Fixpoint for_each {A B} (f : A -> result B) (l : list A) : result (list B) :=
  match l with
  | [] => Ok []
  | x :: l' => y ← f x; ys ← for_each f l'; Ok (y :: ys)
  end.

(** What [subprocess.run] did for a tool: it returned with the tool's
    standard output, or it raised [subprocess.TimeoutExpired],
    [FileNotFoundError] or another [Exception], which carries [str(e)]. *)
Inductive run_outcome :=
  | Completed (stdout : string)
  | TimeoutExpired
  | FileNotFoundError
  | RunFailed (str_e : string).

(** ** Python's [re], for the constructs of the type-checker pattern *)

Module Re.

(** Code points below 128; the character classes are those of a [str]
    pattern restricted to that range. *)
Definition code (c : ascii) : N := N_of_ascii c.

Definition between (lo hi : N) (c : ascii) : bool :=
  ((lo <=? code c) && (code c <=? hi))%N.

(** [\d] *)
Definition is_digit (c : ascii) : bool := between 48 57 c.
(** [str.isalpha] *)
Definition is_alpha (c : ascii) : bool := between 65 90 c || between 97 122 c.
(** [\w] *)
Definition is_word (c : ascii) : bool :=
  is_alpha c || is_digit c || (code c =? 95)%N.
(** [\s]: tab, LF, VT, FF, CR, FS, GS, RS, US, space *)
Definition is_space (c : ascii) : bool :=
  between 9 13 c || between 28 32 c.
(** [.] without [re.DOTALL] *)
Definition is_dot (c : ascii) : bool := negb (code c =? 10)%N.
(** [[^x]] *)
Definition is_not (x : ascii) (c : ascii) : bool := negb (Ascii.eqb c x).

Inductive regex :=
  | Eps                               (* the empty pattern *)
  | Bol                               (* ^ under re.MULTILINE *)
  | Eol                               (* $ under re.MULTILINE *)
  | Lit (c : ascii)                   (* a literal character *)
  | Plus (p : ascii -> bool)          (* [class]+ *)
  | PlusLazy (p : ascii -> bool)      (* [class]+? *)
  | Seq (r1 r2 : regex)
  | Opt (r : regex)                   (* (?:r)? *)
  | Group (name : string) (r : regex) (* (?P<name>r) *).

(** The matcher's position: the character before it, the input from it
    on, and the groups captured so far (latest first). *)
Record mstate := mkState {
  prev : option ascii;
  rest : string;
  groups : list (string * string)
}.

Definition newline : ascii := ascii_of_N 10.

Definition at_bol (st : mstate) : bool :=
  match prev st with
  | None => true
  | Some c => Ascii.eqb c newline
  end.

Definition at_eol (st : mstate) : bool :=
  match rest st with
  | EmptyString => true
  | String c _ => Ascii.eqb c newline
  end.

(** The first [n] characters of [s]. *)
Fixpoint take_str (n : nat) (s : string) : string :=
  match n, s with
  | S n', String c s' => String c (take_str n' s')
  | _, _ => EmptyString
  end.

(** The text between two positions of one scan. *)
Definition consumed (from to : mstate) : string :=
  take_str (String.length (rest from) - String.length (rest to)) (rest from).

Section Backtracking.
Context {A : Type}.

(** [class]* greedy: the longest run first, then shorter ones. *)
Fixpoint star_greedy (p : ascii -> bool) (k : mstate -> option A)
    (pv : option ascii) (s : string) (g : list (string * string)) : option A :=
  match s with
  | String c s' =>
      if p c then
        match star_greedy p k (Some c) s' g with
        | Some x => Some x
        | None => k (mkState pv s g)
        end
      else k (mkState pv s g)
  | EmptyString => k (mkState pv s g)
  end.

(** [class]*? lazy: the shortest run first, then longer ones. *)
Fixpoint star_lazy (p : ascii -> bool) (k : mstate -> option A)
    (pv : option ascii) (s : string) (g : list (string * string)) : option A :=
  match k (mkState pv s g) with
  | Some x => Some x
  | None =>
      match s with
      | String c s' => if p c then star_lazy p k (Some c) s' g else None
      | EmptyString => None
      end
  end.

(** Backtracking search: [exec r k st] is the first way, in the order
    Python tries them, to match [r] at [st] so that the continuation
    [k] succeeds on what follows. *)
Fixpoint exec (r : regex) (k : mstate -> option A) (st : mstate) : option A :=
  match r with
  | Eps => k st
  | Bol => if at_bol st then k st else None
  | Eol => if at_eol st then k st else None
  | Lit c =>
      match rest st with
      | String c' s' =>
          if Ascii.eqb c' c then k (mkState (Some c') s' (groups st)) else None
      | EmptyString => None
      end
  | Plus p =>
      match rest st with
      | String c s' => if p c then star_greedy p k (Some c) s' (groups st) else None
      | EmptyString => None
      end
  | PlusLazy p =>
      match rest st with
      | String c s' => if p c then star_lazy p k (Some c) s' (groups st) else None
      | EmptyString => None
      end
  | Seq r1 r2 => exec r1 (exec r2 k) st
  | Opt r =>
      match exec r k st with
      | Some x => Some x
      | None => k st
      end
  | Group name r =>
      exec r (fun st' =>
        k (mkState (prev st') (rest st') ((name, consumed st st') :: groups st'))) st
  end.

End Backtracking.

Fixpoint all_chars (p : ascii -> bool) (w : string) : bool :=
  match w with
  | EmptyString => true
  | String c w' => p c && all_chars p w'
  end.

(** What a match of [r] from [st] to [st'] guarantees about the text
    passed over and the groups set. *)
Fixpoint reach (r : regex) (st st' : mstate) : Prop :=
  match r with
  | Eps => st' = st
  | Bol => at_bol st = true /\ st' = st
  | Eol => at_eol st = true /\ st' = st
  | Lit c =>
      exists s', rest st = String c s' /\ st' = mkState (Some c) s' (groups st)
  | Plus p | PlusLazy p =>
      exists c w, p c = true /\ all_chars p w = true
        /\ rest st = String c (w +:+ rest st') /\ groups st' = groups st
  | Seq r1 r2 => exists mid, reach r1 st mid /\ reach r2 mid st'
  | Opt r => reach r st st' \/ st' = st
  | Group name r =>
      exists mid, reach r st mid
        /\ st' = mkState (prev mid) (rest mid) ((name, consumed st mid) :: groups mid)
  end.

(** [pattern.match] at one position: the state after the match. *)
Definition match_at (r : regex) (pv : option ascii) (s : string) : option mstate :=
  exec r Some (mkState pv s []).

(** [match.groupdict()]: a group that took no part in the match is
    [None]. *)
Definition groupdict (m : mstate) (name : string) : option string :=
  snd <$> List.find (fun '(n, _) => String.eqb n name) (groups m).

(** [pattern.finditer(s)]: the non-overlapping matches from left to
    right.  [skip] counts the characters of the last match still to be
    passed over before the next attempt. *)
Fixpoint scan (r : regex) (skip : nat) (pv : option ascii) (s : string)
    : list mstate :=
  match skip with
  | S skip' =>
      match s with
      | String c s' => scan r skip' (Some c) s'
      | EmptyString => []
      end
  | O =>
      match match_at r pv s with
      | Some m =>
          let n := (String.length s - String.length (rest m))%nat in
          m :: match s with
               | String c s' => scan r (n - 1) (Some c) s'
               | EmptyString => []
               end
      | None =>
          match s with
          | String c s' => scan r 0 (Some c) s'
          | EmptyString => []
          end
      end
  end.

Definition finditer (r : regex) (s : string) : list mstate := scan r 0 None s.

End Re.

(** ** analyzer/mypy_analyzer.py *)

Module MypyAnalyzer.
Import Re.

Definition SEVERITY_MAP : gmap string Severity :=
  list_to_map [
    ("syntax", CRITICAL);
    ("attr-defined", HIGH);
    ("name-defined", HIGH);
    ("call-arg", HIGH);
    ("arg-type", MEDIUM);
    ("return-value", MEDIUM);
    ("assignment", MEDIUM);
    ("type-arg", MEDIUM);
    ("no-untyped-def", LOW);
    ("no-any-return", LOW);
    ("unused-ignore", INFO)
  ].

(** The patterns of a list, one after the other. *)
Fixpoint seq_of (rs : list regex) : regex :=
  match rs with
  | [] => Eps
  | [r] => r
  | r :: rs' => Seq r (seq_of rs')
  end.

(** [^(?P<file>[^:]+):(?P<line>\d+):(?P<col>\d+): (?P<level>\w+): (?P<message>.+?)(?:\s+\[(?P<code>[\w-]+)\])?$]
    compiled with [re.MULTILINE]. *)
Definition pattern : regex :=
  seq_of [
    Bol;
    Group "file" (Plus (is_not ":")); Lit ":";
    Group "line" (Plus is_digit); Lit ":";
    Group "col" (Plus is_digit); Lit ":"; Lit " ";
    Group "level" (Plus is_word); Lit ":"; Lit " ";
    Group "message" (PlusLazy is_dot);
    Opt (seq_of [
      Plus is_space; Lit "[";
      Group "code" (Plus (fun c => is_word c || Ascii.eqb c "-"));
      Lit "]"]);
    Eol
  ].

(** The value of a string of decimal digits. *)
Fixpoint int_digits (acc : Z) (s : string) : option Z :=
  match s with
  | EmptyString => Some acc
  | String c s' =>
      if is_digit c then int_digits (acc * 10 + (Z.of_N (code c) - 48)) s'
      else None
  end.

(** [sys.int_info.default_max_str_digits]: the interpreter's limit on
    the number of digits of a string that [int] converts, as it is
    when nothing sets another. *)
Definition int_max_str_digits : Z := 4300.

(** The string has no more digits than [int] converts; leading zeros
    count. *)
Definition within_digit_limit (s : string) : bool :=
  Z.of_nat (String.length s) <=? int_max_str_digits.

(** [int(s)] on the strings of decimal digits that the groups [line]
    and [col] capture: [ValueError] for more than 4300 digits.  Other
    strings do not reach it; for them the model answers [ValueError]. *)
Definition int_ (v : option string) : result Z :=
  match v with
  | None => Raise TypeError
  | Some EmptyString => Raise ValueError
  | Some s =>
      match int_digits 0 s with
      | Some n => if within_digit_limit s then Ok n else Raise ValueError
      | None => Raise ValueError
      end
  end.

(** A required [str] field of a pydantic model. *)
Definition required_str (v : option string) : result string :=
  match v with
  | Some s => Ok s
  | None => Raise ValidationError
  end.

(** [_get_severity_for_code(error_code)] *)
Definition _get_severity_for_code (error_code : option string) : Severity :=
  match error_code with
  | Some c => default MEDIUM (SEVERITY_MAP !! c)
  | None => MEDIUM
  end.

(** [_convert_mypy_match(match_dict)] *)
Definition _convert_mypy_match (match_dict : string -> option string)
    : result Finding :=
  let file_path := match_dict "file" in
  line ← int_ (match_dict "line");
  column ← int_ (match_dict "col");
  let level := match_dict "level" in
  let message := match_dict "message" in
  let error_code := match_dict "code" in
  let severity :=
    if decide (level = Some "error") then _get_severity_for_code error_code
    else if decide (level = Some "warning") then LOW
    else if decide (level = Some "note") then INFO
    else MEDIUM in
  file_ ← required_str file_path;
  let location := mkLocation file_ (Some line) (Some column) None None in
  message_ ← required_str message;
  Ok (mkFinding TYPE_ERROR severity location message_
        (Some (match error_code with
               | Some (String c s) => "mypy:" +:+ String c s
               | _ => "mypy"
               end))
        false).

(** A line feed. *)
Definition LF : string := String newline "".

(** The lines of a text, split at line feeds. *)
Fixpoint lines_from (cur : string) (s : string) : list string :=
  match s with
  | EmptyString => [cur]
  | String c s' =>
      if Ascii.eqb c newline then cur :: lines_from "" s'
      else lines_from (cur +:+ String c "") s'
  end.

Definition lines (s : string) : list string := lines_from "" s.

(** A line, taken alone, matches the pattern. *)
Definition line_matches (l : string) : bool :=
  match match_at pattern None l with
  | Some _ => true
  | None => false
  end.

(** [_parse_mypy_output(output)] *)
Definition _parse_mypy_output (output : string) : result (list Finding) :=
  for_each (fun m => _convert_mypy_match (groupdict m)) (finditer pattern output).

(** [analyze_directory(directory)], given what [subprocess.run] did;
    [str_exn] is [str(e)] for an exception raised while parsing. *)
Definition analyze_directory (str_exn : exn -> string) (directory : string)
    (run : run_outcome) : list Finding :=
  let findings : list Finding := [] in
  match run with
  | Completed stdout =>
      if decide (stdout = "") then findings
      else
        match _parse_mypy_output stdout with
        | Ok parsed => findings ++ parsed
        | Raise e =>
            findings ++ [mkFinding BUG HIGH
              (mkLocation directory None None None None)
              ("Failed to run mypy: " +:+ str_exn e) (Some "MYPY002") false]
        end
  | TimeoutExpired =>
      findings ++ [mkFinding BUG HIGH
        (mkLocation directory None None None None)
        "Mypy analysis timed out after 10 minutes" (Some "MYPY000") false]
  | FileNotFoundError =>
      findings ++ [mkFinding BUG MEDIUM
        (mkLocation directory None None None None)
        "Mypy not found. Install with: pip install mypy" (Some "MYPY001") false]
  | RunFailed str_e =>
      findings ++ [mkFinding BUG HIGH
        (mkLocation directory None None None None)
        ("Failed to run mypy: " +:+ str_e) (Some "MYPY002") false]
  end.

End MypyAnalyzer.

(** ** Values of [json.loads] *)

Module Json.

(** A [float] is kept as its text; distinct texts are distinct values. *)
Inductive json :=
  | JNull
  | JBool (b : bool)
  | JInt (n : Z)
  | JFloat (repr : string)
  | JStr (s : string)
  | JList (items : list json)
  | JDict (items : list (string * json)).

(** The value stored under [key] in a [dict]'s items. *)
Fixpoint lookup_key (key : string) (items : list (string * json)) : option json :=
  match items with
  | [] => None
  | (k, v) :: items' => if String.eqb k key then Some v else lookup_key key items'
  end.

(** [obj.get(key, dflt)]: [AttributeError] unless [obj] is a [dict]. *)
Definition get (obj : json) (key : string) (dflt : json) : result json :=
  match obj with
  | JDict items => Ok (default dflt (lookup_key key items))
  | _ => Raise AttributeError
  end.

(** [for x in obj]: the elements of a list, the keys of a dict, the
    characters of a string; [TypeError] for the other values. *)
Definition iterate (obj : json) : result (list json) :=
  match obj with
  | JList items => Ok items
  | JDict items => Ok (map (fun kv => JStr (fst kv)) items)
  | JStr s => Ok (map (fun c => JStr (String c "")) (list_ascii_of_string s))
  | _ => Raise TypeError
  end.

(** What [json.loads(output)] did: returned a value, raised
    [json.JSONDecodeError], which carries [str(e)], or raised another
    exception: a plain [ValueError] for an integer literal of more than
    4300 digits, [RecursionError] for nesting beyond the interpreter's
    limit. *)
Inductive loads_outcome :=
  | Loaded (value : json)
  | JSONDecodeError (str_e : string)
  | LoadsRaised (e : exn).

(** [json.loads("NaN")]: the decoder accepts the constants [NaN],
    [Infinity] and [-Infinity], which are no JSON, and returns a
    float. *)
Definition loads_NaN : loads_outcome := Loaded (JFloat "nan").

(** [json.loads("[" + "1" * 5000)], an array that is never closed: the
    conversion of the integer raises [ValueError] before the decoder
    reaches the end of the text. *)
Definition loads_unclosed_long_integer : loads_outcome := LoadsRaised ValueError.

End Json.

(** ** analyzer/ruff_analyzer.py *)

Module RuffAnalyzer.
Import Json.

Definition SEVERITY_MAP : gmap string Severity :=
  list_to_map [
    ("E", MEDIUM);
    ("F", HIGH);
    ("W", LOW);
    ("I", LOW);
    ("N", LOW);
    ("UP", MEDIUM);
    ("S", HIGH);
    ("B", MEDIUM);
    ("A", MEDIUM);
    ("C4", LOW);
    ("T20", LOW)
  ].

(** The loop of [_get_severity_for_rule]: [prefix] grows by the
    characters of [chars] up to the first that is not alphabetic,
    where the loop breaks. *)
Fixpoint leading_alpha (chars : string) (prefix : string) : string :=
  match chars with
  | String char chars' =>
      if Re.is_alpha char then leading_alpha chars' (prefix +:+ String char "")
      else prefix
  | EmptyString => prefix
  end.

(** [_get_severity_for_rule(rule_code)] *)
Definition _get_severity_for_rule (rule_code : string) : Severity :=
  let prefix := leading_alpha rule_code "" in
  default MEDIUM (SEVERITY_MAP !! prefix).

(** [_get_finding_type(rule_code)] *)
Definition _get_finding_type (rule_code : string) : FindingType :=
  if String.prefix "S" rule_code then SECURITY
  else if String.prefix "F" rule_code || String.prefix "E9" rule_code then BUG
  else if String.prefix "E" rule_code || String.prefix "W" rule_code
          || String.prefix "I" rule_code || String.prefix "N" rule_code then STYLE
  else if String.prefix "PERF" rule_code then PERFORMANCE
  else CODE_SMELL.

Section Pydantic.

(** pydantic's validation of a value other than [None] for an [int]
    field: the integer it yields, or [None] when it rejects the value.
    Which floats and strings it converts is the library's business;
    the analyzer is modelled for any such validator. *)
Variable int_validator : json -> option Z.

(** A field of type [Optional[int]]. *)
Definition optional_int (v : json) : result (option Z) :=
  match v with
  | JNull => Ok None
  | _ =>
      match int_validator v with
      | Some n => Ok (Some n)
      | None => Raise ValidationError
      end
  end.

(** A field of type [str]. *)
Definition str_field (v : json) : result string :=
  match v with
  | JStr s => Ok s
  | _ => Raise ValidationError
  end.

(** [_convert_ruff_issue(issue)] *)
Definition _convert_ruff_issue (issue : json) : result Finding :=
  location_data ← get issue "location" (JDict []);
  end_location ← get issue "end_location" (JDict []);
  filename ← get issue "filename" (JStr "unknown");
  row ← get location_data "row" JNull;
  col ← get location_data "column" JNull;
  end_row ← get end_location "row" JNull;
  file_ ← str_field filename;
  line_ ← optional_int row;
  column_ ← optional_int col;
  end_line_ ← optional_int end_row;
  let location := mkLocation file_ line_ column_ end_line_ None in
  rule_code ← get issue "code" (JStr "");
  match rule_code with
  | JStr rule_code =>
      let severity := _get_severity_for_rule rule_code in
      let finding_type := _get_finding_type rule_code in
      fix_ ← get issue "fix" JNull;
      let fix_available := match fix_ with JNull => false | _ => true end in
      message_v ← get issue "message" (JStr "No message provided");
      message_ ← str_field message_v;
      Ok (mkFinding finding_type severity location message_
            (Some rule_code) fix_available)
  | JList _ | JDict _ => Raise AttributeError
  | _ => Raise TypeError
  end.

(** [_parse_ruff_output(output)], given what [json.loads(output)] did.
    Only [json.JSONDecodeError] is caught. *)
Definition _parse_ruff_output (loaded : loads_outcome) : result (list Finding) :=
  match loaded with
  | Loaded issues =>
      items ← iterate issues;
      for_each _convert_ruff_issue items
  | JSONDecodeError str_e =>
      Ok [mkFinding BUG MEDIUM
            (mkLocation "ruff_output" None None None None)
            ("Failed to parse ruff output: " +:+ str_e)
            (Some "RUFF003") false]
  | LoadsRaised e => Raise e
  end.

(** [analyze_directory(directory)], given what [subprocess.run] did and
    what [json.loads] does with the output; [str_exn] is [str(e)] for
    an exception raised while parsing. *)
Definition analyze_directory (str_exn : exn -> string) (directory : string)
    (run : run_outcome) (loaded : loads_outcome) : list Finding :=
  let findings : list Finding := [] in
  match run with
  | Completed stdout =>
      if decide (stdout = "") then findings
      else
        match _parse_ruff_output loaded with
        | Ok parsed => findings ++ parsed
        | Raise e =>
            findings ++ [mkFinding BUG HIGH
              (mkLocation directory None None None None)
              ("Failed to run ruff: " +:+ str_exn e) (Some "RUFF002") false]
        end
  | TimeoutExpired =>
      findings ++ [mkFinding BUG HIGH
        (mkLocation directory None None None None)
        "Ruff analysis timed out after 5 minutes" (Some "RUFF000") false]
  | FileNotFoundError =>
      findings ++ [mkFinding BUG CRITICAL
        (mkLocation directory None None None None)
        "Ruff not found. Please install: pip install ruff" (Some "RUFF001") false]
  | RunFailed str_e =>
      findings ++ [mkFinding BUG HIGH
        (mkLocation directory None None None None)
        ("Failed to run ruff: " +:+ str_e) (Some "RUFF002") false]
  end.

End Pydantic.

(** The validator on JSON integers, where every [int] validation
    agrees. *)
Definition int_only (v : json) : option Z :=
  match v with
  | JInt n => Some n
  | _ => None
  end.

(** An issue object as the linter prints it, with the given message
    value. *)
Definition sample_issue (message_value : json) : json :=
  JDict [
    ("code", JStr "E501");
    ("filename", JStr "src/app.py");
    ("location", JDict [("row", JInt 3); ("column", JInt 89)]);
    ("end_location", JDict [("row", JInt 3); ("column", JInt 120)]);
    ("fix", JNull);
    ("message", message_value)
  ].

End RuffAnalyzer.

(** ** cli.py *)

Module Cli.

(** [counter[key] += 1] on a [Counter]: a missing key counts as 0. *)
Definition increment `{Countable K} (key : K) (counter : gmap K nat) : gmap K nat :=
  <[key := (default 0 (counter !! key) + 1)%nat]> counter.

(** [_generate_summary(findings, python_files_count)] *)
Definition _generate_summary (findings : list Finding) (python_files_count : nat)
    : AnalysisSummary :=
  let severity_counts : gmap Severity nat :=
    foldl (fun counts finding => increment (severity finding) counts) ∅ findings in
  let type_counts : gmap FindingType nat :=
    foldl (fun counts finding => increment (type finding) counts) ∅ findings in
  let files_with_findings : gset string :=
    list_to_set (map (fun f => file (location f)) findings) in
  mkAnalysisSummary
    (if decide (files_with_findings = ∅) then python_files_count
     else size files_with_findings)
    python_files_count
    (length findings)
    severity_counts
    type_counts
    0.

(** [sum(1 for f in findings if pred(f))] and [len([f for f in findings if pred(f)])] *)
Definition count_if (pred : Finding -> bool) (findings : list Finding) : nat :=
  length (List.filter pred findings).

Definition is_severity (s : Severity) (f : Finding) : bool :=
  bool_decide (severity f = s).
Definition is_type (t : FindingType) (f : Finding) : bool :=
  bool_decide (type f = t).

Definition str_len (n : nat) : string := pretty n.

(** [_generate_recommendations(findings, git_metrics)] *)
Definition _generate_recommendations (findings : list Finding)
    (git_metrics : option GitMetrics) : list Recommendation :=
  let recommendations : list Recommendation := [] in
  let critical_count := count_if (is_severity CRITICAL) findings in
  let high_count := count_if (is_severity HIGH) findings in
  let recommendations :=
    if (0 <? critical_count)%nat then
      recommendations ++ [mkRecommendation P_URGENT "Critical Issues"
        ("Fix " +:+ str_len critical_count +:+ " critical issue(s) immediately")
        "Critical issues can cause runtime failures or security vulnerabilities"
        "Prevents potential system failures and security breaches"
        (Some (if (10 <? critical_count)%nat then "high" else "medium")) []]
    else recommendations in
  let recommendations :=
    if (5 <? high_count)%nat then
      recommendations ++ [mkRecommendation P_HIGH "High Severity Issues"
        ("Address " +:+ str_len high_count +:+ " high-severity issues")
        "High-severity issues indicate bugs or type errors that should be fixed"
        "Improves code reliability and reduces bug risk"
        (Some (if (20 <? high_count)%nat then "high" else "medium")) []]
    else recommendations in
  let complexity_issues := List.filter (is_type COMPLEXITY) findings in
  let recommendations :=
    if (5 <? length complexity_issues)%nat then
      recommendations ++ [mkRecommendation P_MEDIUM "Code Complexity"
        ("Refactor " +:+ str_len (length complexity_issues) +:+ " complex functions")
        "High complexity makes code harder to understand, test, and maintain"
        "Improves code maintainability and reduces bug introduction risk"
        (Some "high") []]
    else recommendations in
  let type_errors := List.filter (is_type TYPE_ERROR) findings in
  let recommendations :=
    if (10 <? length type_errors)%nat then
      recommendations ++ [mkRecommendation P_HIGH "Type Safety"
        "Improve type annotations and fix type errors"
        "Type safety helps catch bugs early and improves code documentation"
        "Reduces runtime errors and improves IDE support"
        (Some "medium") []]
    else recommendations in
  let recommendations :=
    match git_metrics with
    | Some gm =>
        match hot_spots gm with
        | [] => recommendations
        | _ :: _ =>
            recommendations ++ [mkRecommendation P_MEDIUM "Code Hot Spots"
              ("Review and potentially refactor " +:+ str_len (length (hot_spots gm))
                 +:+ " " +:+ "frequently-changed files")
              ("Files that change frequently may indicate design issues or "
                 +:+ "insufficient abstraction")
              "Reduces future change frequency and improves design"
              (Some "high") []]
        end
    | None => recommendations
    end in
  let recommendations :=
    match git_metrics with
    | Some gm =>
        match large_files gm with
        | [] => recommendations
        | _ :: _ =>
            recommendations ++ [mkRecommendation P_LOW "Large Files"
              ("Consider splitting " +:+ str_len (length (large_files gm))
                 +:+ " large files")
              "Large files are harder to navigate and may indicate low cohesion"
              "Improves code organization and maintainability"
              (Some "medium") []]
        end
    | None => recommendations
    end in
  let fixable_count := count_if fix_available findings in
  if (0 <? fixable_count)%nat then
    recommendations ++ [mkRecommendation P_LOW "Quick Wins"
      ("Run auto-fix for " +:+ str_len fixable_count +:+ " fixable issues")
      "Many linting issues can be automatically fixed"
      "Quick improvement in code quality with minimal effort"
      (Some "low") []]
  else recommendations.

(** *** The seven rules, each as a function of the one statistic it
    tests *)

Definition critical_rule (critical_count : nat) : list Recommendation :=
  if (0 <? critical_count)%nat then
    [mkRecommendation P_URGENT "Critical Issues"
       ("Fix " +:+ str_len critical_count +:+ " critical issue(s) immediately")
       "Critical issues can cause runtime failures or security vulnerabilities"
       "Prevents potential system failures and security breaches"
       (Some (if (10 <? critical_count)%nat then "high" else "medium")) []]
  else [].

Definition high_rule (high_count : nat) : list Recommendation :=
  if (5 <? high_count)%nat then
    [mkRecommendation P_HIGH "High Severity Issues"
       ("Address " +:+ str_len high_count +:+ " high-severity issues")
       "High-severity issues indicate bugs or type errors that should be fixed"
       "Improves code reliability and reduces bug risk"
       (Some (if (20 <? high_count)%nat then "high" else "medium")) []]
  else [].

Definition complexity_rule (complexity_count : nat) : list Recommendation :=
  if (5 <? complexity_count)%nat then
    [mkRecommendation P_MEDIUM "Code Complexity"
       ("Refactor " +:+ str_len complexity_count +:+ " complex functions")
       "High complexity makes code harder to understand, test, and maintain"
       "Improves code maintainability and reduces bug introduction risk"
       (Some "high") []]
  else [].

Definition type_error_rule (type_error_count : nat) : list Recommendation :=
  if (10 <? type_error_count)%nat then
    [mkRecommendation P_HIGH "Type Safety"
       "Improve type annotations and fix type errors"
       "Type safety helps catch bugs early and improves code documentation"
       "Reduces runtime errors and improves IDE support"
       (Some "medium") []]
  else [].

Definition hot_spot_rule (git_metrics : option GitMetrics) : list Recommendation :=
  match git_metrics with
  | Some gm =>
      match hot_spots gm with
      | [] => []
      | _ :: _ =>
          [mkRecommendation P_MEDIUM "Code Hot Spots"
             ("Review and potentially refactor " +:+ str_len (length (hot_spots gm))
                +:+ " frequently-changed files")
             "Files that change frequently may indicate design issues or insufficient abstraction"
             "Reduces future change frequency and improves design"
             (Some "high") []]
      end
  | None => []
  end.

Definition large_file_rule (git_metrics : option GitMetrics) : list Recommendation :=
  match git_metrics with
  | Some gm =>
      match large_files gm with
      | [] => []
      | _ :: _ =>
          [mkRecommendation P_LOW "Large Files"
             ("Consider splitting " +:+ str_len (length (large_files gm))
                +:+ " large files")
             "Large files are harder to navigate and may indicate low cohesion"
             "Improves code organization and maintainability"
             (Some "medium") []]
      end
  | None => []
  end.

Definition fixable_rule (fixable_count : nat) : list Recommendation :=
  if (0 <? fixable_count)%nat then
    [mkRecommendation P_LOW "Quick Wins"
       ("Run auto-fix for " +:+ str_len fixable_count +:+ " fixable issues")
       "Many linting issues can be automatically fixed"
       "Quick improvement in code quality with minimal effort"
       (Some "low") []]
  else [].

(** The recommendation of the first rule for one critical finding. *)
Definition urgent_for_one : Recommendation :=
  mkRecommendation P_URGENT "Critical Issues"
    "Fix 1 critical issue(s) immediately"
    "Critical issues can cause runtime failures or security vulnerabilities"
    "Prevents potential system failures and security breaches"
    (Some "medium") [].

(** Findings as the analyzers build them, for the examples. *)
Definition type_error_finding (sev : Severity) (code : string) : Finding :=
  mkFinding TYPE_ERROR sev (mkLocation "a.py" (Some 1) (Some 1) None None)
    "reported by the type checker" (Some ("mypy:" +:+ code)) false.

Definition syntax_error_finding : Finding :=
  mkFinding BUG CRITICAL (mkLocation "b.py" (Some 2) (Some 1) None None)
    "Syntax error: invalid syntax" (Some "AST001") false.

(** The sum of a counter's values: [sum(counter.values())]. *)
Definition sum_values `{Countable K} (counter : gmap K nat) : nat :=
  map_fold (fun _ v acc => (v + acc)%nat) 0%nat counter.

(** The number of distinct file identifiers of the findings. *)
Definition distinct_files (findings : list Finding) : nat :=
  length (remove_dups (map (fun f => file (location f)) findings)).

End Cli.

(** ** git/repo_analyzer.py *)

Module GitRepoAnalyzer.

(** What the analyzer reads of a commit: [commit.author.email], [None]
    when [commit.author] is falsy, and the keys of [commit.stats.files]
    in order, [None] when reading the statistics raises. *)
Record commit := mkCommit {
  author_email : option string;
  stats_files : option (list string)
}.

(** [counter[key] += 1] on a [Counter] kept with its insertion order:
    a key that is present keeps its place, a new key goes last. *)
Fixpoint bump (key : string) (counter : list (string * nat)) : list (string * nat) :=
  match counter with
  | [] => [(key, 1%nat)]
  | (k, n) :: counter' =>
      if String.eqb k key then (k, S n) :: counter'
      else (k, n) :: bump key counter'
  end.

(** The loop over [commits[:1000]] that fills [file_changes]; a commit
    whose statistics raise is skipped. *)
Definition count_changes (commits : list commit) : list (string * nat) :=
  foldl (fun counter c =>
           match stats_files c with
           | Some files => foldl (fun counter item => bump item counter) counter files
           | None => counter
           end)
    [] (take 1000 commits).

(** [sorted(items, key=itemgetter(1), reverse=True)]: by count, largest
    first, items of equal count in their original order. *)
Fixpoint insert_by_count (x : string * nat) (sorted : list (string * nat))
    : list (string * nat) :=
  match sorted with
  | [] => [x]
  | y :: sorted' =>
      if (snd y <=? snd x)%nat then x :: y :: sorted'
      else y :: insert_by_count x sorted'
  end.

Definition sort_by_count (items : list (string * nat)) : list (string * nat) :=
  foldr insert_by_count [] items.

(** [counter.most_common(n)] *)
Definition most_common (n : nat) (counter : list (string * nat))
    : list (string * nat) :=
  take n (sort_by_count counter).

(** [hot_spot_threshold: int = 10] of [GitRepoAnalyzer.__init__] *)
Definition default_hot_spot_threshold : nat := 10.

(** The list comprehension that builds [hot_spots]. *)
Definition find_hot_spots (hot_spot_threshold : nat) (commits : list commit)
    : list string :=
  map fst
    (List.filter (fun fc => (hot_spot_threshold <=? snd fc)%nat)
       (most_common 20 (count_changes commits))).

(** A file that [rglob("*.py")] yields in the working directory: the
    parts of its path, its path relative to the working directory, and
    its number of lines, [None] when opening or reading it raises. *)
Record repo_file := mkRepoFile {
  rf_parts : list string;
  rf_rel_path : string;
  rf_lines : option nat
}.

Definition rf_skipped (f : repo_file) : bool :=
  existsb (String.prefix ".") (rf_parts f)
  || existsb (fun part => bool_decide (part ∈ AstAnalyzer.excluded_parts))
       (rf_parts f).

(** [_find_large_files(size_threshold)] *)
Definition _find_large_files (size_threshold : nat) (files : list repo_file)
    : list string :=
  let large_files :=
    flat_map (fun f =>
      if rf_skipped f then []
      else
        match rf_lines f with
        | Some lines_ =>
            if (size_threshold <? lines_)%nat then
              [rf_rel_path f +:+ " (" +:+ pretty lines_ +:+ " lines)"]
            else []
        | None => []
        end) files in
  take 20 large_files.

(** [size_threshold: int = 500] of [_find_large_files] *)
Definition default_size_threshold : nat := 500.

(** What [Repo(repo_path)] gives access to: the commits, newest first
    (none when the repository has no commit yet), the Python files of
    the working directory, and the ISO text of the newest commit's
    date, [None] when converting it raises. *)
Record repository := mkRepository {
  commits : list commit;
  working_files : list repo_file;
  newest_date : option string
}.

(** The [contributors] set of [analyze]. *)
Definition contributors (cs : list commit) : gset string :=
  foldl (fun acc c =>
           match author_email c with
           | Some email => acc ∪ {[email]}
           | None => acc
           end) ∅ cs.

(** [GitRepoAnalyzer.analyze()].  In a repository without commits
    [self.repo.iter_commits()] raises [ValueError]: the head refers to
    no commit.  So the list [commits] is not empty where the method
    goes on, and the test [if commits:] holds. *)
Definition analyze (hot_spot_threshold : nat) (repo : repository)
    : result GitMetrics :=
  match commits repo with
  | [] => Raise ValueError
  | _ :: _ =>
      Ok (mkGitMetrics
            (Z.of_nat (length (commits repo)))
            (Z.of_nat (size (contributors (commits repo))))
            (find_hot_spots hot_spot_threshold (commits repo))
            (_find_large_files default_size_threshold (working_files repo))
            (newest_date repo))
  end.

(** [analyze_git_repo(repo_path)]: [None] when GitPython is missing or
    the path is no repository ([repo] is [None] then), and when
    [analyze] raises. *)
Definition analyze_git_repo (repo : option repository) : option GitMetrics :=
  match repo with
  | Some r =>
      match analyze default_hot_spot_threshold r with
      | Ok metrics => Some metrics
      | Raise _ => None
      end
  | None => None
  end.

End GitRepoAnalyzer.

(** ** cli.py: the [analyze] command *)

Module CliCommand.
Import Json.

(** [models/schemas.py]: [AnalysisResult] *)
Record AnalysisResult := mkAnalysisResult {
  repo_path : string;
  analysis_timestamp : string;
  summary : AnalysisSummary;
  findings : list Finding;
  recommendations : list Recommendation;
  git_metrics : option GitMetrics
}.

(** What [output.write_text(json_output)] did. *)
Inductive write_outcome :=
  | Written
  | WriteRaised.

(** What the command finds outside itself: the files of
    [repo_path.rglob("*.py")] with what parsing each does, what running
    the linter and the type checker does, what [json.loads] does with
    the linter's output, the repository if it can be opened, the
    absolute path, the clock, and what writing the output file does.
    Listing the files, building the JSON text and printing are taken
    to succeed. *)
Record environment := mkEnvironment {
  env_py_files : list AstAnalyzer.py_file;
  env_ruff_run : run_outcome;
  env_ruff_loaded : loads_outcome;
  env_mypy_run : run_outcome;
  env_repo : option GitRepoAnalyzer.repository;
  env_absolute_path : string;
  env_utcnow : string;
  env_write_text : write_outcome
}.

(** The test of the comprehension that filters [python_files]. *)
Definition counted (f : AstAnalyzer.py_file) : bool :=
  negb (existsb (fun part =>
          String.prefix "." part
          || bool_decide (part ∈ AstAnalyzer.excluded_parts))
        (AstAnalyzer.parts f)).

Section Analyze.

Variable int_validator : json -> option Z.
Variable str_exn : exn -> string.

(** [analyze(repo_path, output, complexity_threshold, skip_git,
    skip_ruff, skip_mypy, skip_ast)]: the result that is built and the
    exit status of the process.  [output.write_text] stands outside
    every [try]: when it raises, the exception leaves the command and
    the process ends with status 1 before the test of the critical
    count. *)
Definition analyze (env : environment) (directory : string)
    (output : option string)
    (complexity_threshold : Z) (skip_git skip_ruff skip_mypy skip_ast : bool)
    : AnalysisResult * Z :=
  let all_findings : list Finding := [] in
  let all_findings :=
    if skip_ast then all_findings
    else all_findings
         ++ AstAnalyzer.analyze_directory complexity_threshold (env_py_files env) in
  let all_findings :=
    if skip_ruff then all_findings
    else all_findings
         ++ RuffAnalyzer.analyze_directory int_validator str_exn directory
              (env_ruff_run env) (env_ruff_loaded env) in
  let all_findings :=
    if skip_mypy then all_findings
    else all_findings
         ++ MypyAnalyzer.analyze_directory str_exn directory (env_mypy_run env) in
  let git_metrics :=
    if skip_git then None
    else GitRepoAnalyzer.analyze_git_repo (env_repo env) in
  let python_files := List.filter counted (env_py_files env) in
  let summary := Cli._generate_summary all_findings (length python_files) in
  let recommendations := Cli._generate_recommendations all_findings git_metrics in
  let result :=
    mkAnalysisResult (env_absolute_path env) (env_utcnow env +:+ "Z")
      summary all_findings recommendations git_metrics in
  let critical_count := Cli.count_if (Cli.is_severity CRITICAL) all_findings in
  match output, env_write_text env with
  | Some _, WriteRaised => (result, 1)
  | _, _ => (result, if (0 <? critical_count)%nat then 1 else 0)
  end.

End Analyze.

End CliCommand.

(** ** Change counts, for stating what the hot spots are *)

Module ChangeCounts.
Import GitRepoAnalyzer.

(** [counter[key]]: 0 for a key that is not in the counter. *)
Fixpoint tally_of (key : string) (counter : list (string * nat)) : nat :=
  match counter with
  | [] => 0
  | (k, n) :: counter' => if String.eqb k key then n else tally_of key counter'
  end.

(** The file names that the statistics of the newest 1000 commits
    list, commit after commit; a commit whose statistics cannot be
    read lists none. *)
Definition changed_files (cs : list commit) : list string :=
  flat_map (fun c => default [] (stats_files c)) (take 1000 cs).

(** How often [file] is listed. *)
Definition times_changed (file : string) (cs : list commit) : nat :=
  length (List.filter (fun x => String.eqb x file) (changed_files cs)).

(** One commit that touches 21 files: one more than [most_common(20)]
    keeps. *)
Definition crowded_commits : list commit :=
  [mkCommit None
     (Some ["a"; "b"; "c"; "d"; "e"; "f"; "g"; "h"; "i"; "j"; "k"; "l"; "m";
            "n"; "o"; "p"; "q"; "r"; "s"; "t"; "u"])].

End ChangeCounts.

(** ** The categories of the recommendations, in the order of the rules *)

Module Categories.

Definition all_categories : list string :=
  ["Critical Issues"; "High Severity Issues"; "Code Complexity"; "Type Safety";
   "Code Hot Spots"; "Large Files"; "Quick Wins"].

End Categories.

(** ** Trees as the parser builds them *)

Module ParsedTrees.

(** A boolean expression of a parsed tree has operands (two or more);
    only a tree built by hand can hold one without any. *)
Definition has_operands (n : node) : bool :=
  match n with
  | BoolOp _ [] => false
  | _ => true
  end.

Definition boolops_have_operands (tree : node) : bool :=
  forallb has_operands (subnodes tree).

(** A path part that makes the directory scan pass over a file. *)
Definition hidden_or_excluded (part : string) : bool :=
  String.prefix "." part
  || bool_decide (part ∈ ["__pycache__"; "venv"; "env"; "node_modules"]).

End ParsedTrees.

(** ** Matches whose numbers [int] converts *)

Module MatchedNumbers.
Import Re MypyAnalyzer.

(** The line and the column of a match have no more digits than
    [int] converts. *)
Definition numbers_within_limit (m : mstate) : bool :=
  within_digit_limit (default "" (groupdict m "line"))
  && within_digit_limit (default "" (groupdict m "col")).

(** The finding that the adapter reports when the parser raises. *)
Definition failed_to_run (str_e : string) (directory : string) : Finding :=
  mkFinding BUG HIGH (mkLocation directory None None None None)
    ("Failed to run mypy: " +:+ str_e) (Some "MYPY002") false.

(** The output of one diagnostic whose line number has [n] digits. *)
Definition diagnostic_with_digits (n : nat) : string :=
  "f.py:" +:+ string_of_list_ascii (replicate n "1"%char) +:+ ":2: error: x".

End MatchedNumbers.

(** * Verification *)

(** ** Syntax trees *)

Section node_induction.
Variable P : node -> Prop.
Hypothesis H_Node : forall k children, Forall P children -> P (Node k children).
Hypothesis H_BoolOp : forall op values, Forall P values -> P (BoolOp op values).
Hypothesis H_arguments : forall po a r,
  Forall P po -> Forall P a -> Forall P r -> P (arguments po a r).
Hypothesis H_FunctionDef : forall h po a r body rest,
  Forall P po -> Forall P a -> Forall P r -> Forall P body -> Forall P rest ->
  P (FunctionDef h po a r body rest).
Hypothesis H_AsyncFunctionDef : forall h po a r body rest,
  Forall P po -> Forall P a -> Forall P r -> Forall P body -> Forall P rest ->
  P (AsyncFunctionDef h po a r body rest).
Hypothesis H_ClassDef : forall h heads body rest,
  Forall P heads -> Forall P body -> Forall P rest -> P (ClassDef h heads body rest).

(** Induction over a tree whose children sit in lists. *)
Fixpoint node_children_ind (n : node) : P n :=
  let all := fix all (l : list node) : Forall P l :=
    match l with
    | [] => @List.Forall_nil node P
    | x :: l' => @List.Forall_cons node P x l' (node_children_ind x) (all l')
    end in
  match n with
  | Node k children => H_Node k children (all children)
  | BoolOp op values => H_BoolOp op values (all values)
  | arguments po a r => H_arguments po a r (all po) (all a) (all r)
  | FunctionDef h po a r body rest =>
      H_FunctionDef h po a r body rest (all po) (all a) (all r) (all body) (all rest)
  | AsyncFunctionDef h po a r body rest =>
      H_AsyncFunctionDef h po a r body rest
        (all po) (all a) (all r) (all body) (all rest)
  | ClassDef h heads body rest =>
      H_ClassDef h heads body rest (all heads) (all body) (all rest)
  end.
End node_induction.

Lemma subnodes_children (n : node) :
  subnodes n = n :: flat_map subnodes (iter_child_nodes n).
Proof.
  destruct n; simpl; rewrite ?flat_map_app; simpl; rewrite ?flat_map_app;
    try reflexivity.
Qed.

(** ** The complexity visitor *)

Section Complexity.
Import AstAnalyzer.

Lemma sumZ_app (l1 l2 : list Z) : sumZ (l1 ++ l2) = sumZ l1 + sumZ l2.
Proof. unfold sumZ. induction l1 as [|x l1 IH]; simpl; lia. Qed.

Lemma forest_total_cons (x : node) (l : list node) :
  forest_total (x :: l) = subtree_total x + forest_total l.
Proof. unfold forest_total, subtree_total. simpl. by rewrite map_app, sumZ_app. Qed.

Lemma forest_total_app (l1 l2 : list node) :
  forest_total (l1 ++ l2) = forest_total l1 + forest_total l2.
Proof. unfold forest_total. by rewrite flat_map_app, map_app, sumZ_app. Qed.

Lemma subtree_total_children (n : node) :
  subtree_total n = own_increment n + forest_total (iter_child_nodes n).
Proof. unfold subtree_total. rewrite subnodes_children. reflexivity. Qed.

(** Visiting a list of children adds what each child's subtree adds. *)
Lemma visit_children (l : list node) :
  Forall (fun x => forall c, visit x c = c + subtree_total x) l ->
  forall c, foldl (fun c child => visit child c) c l = c + forest_total l.
Proof.
  induction 1 as [|x l Hx _ IH]; intros c; simpl.
  - unfold forest_total. simpl. lia.
  - rewrite IH, Hx, forest_total_cons. lia.
Qed.

Lemma visit_total (n : node) : forall c, visit n c = c + subtree_total n.
Proof.
  induction n using node_children_ind; intros c;
    rewrite subtree_total_children; simpl iter_child_nodes.
  - destruct k; simpl; rewrite visit_children by assumption; lia.
  - simpl. rewrite visit_children by assumption. lia.
  - simpl. rewrite !visit_children by assumption.
    rewrite !forest_total_app. lia.
  - simpl. rewrite !visit_children by assumption.
    rewrite forest_total_cons, subtree_total_children, !forest_total_app.
    simpl. rewrite !forest_total_app. lia.
  - simpl. rewrite !visit_children by assumption.
    rewrite forest_total_cons, subtree_total_children, !forest_total_app.
    simpl. rewrite !forest_total_app. lia.
  - simpl. rewrite !visit_children by assumption.
    rewrite !forest_total_app. lia.
Qed.

(** [generic_visit] is the fold over [ast.iter_child_nodes]. *)
Lemma visit_generic_visit (n : node) (c : Z) :
  visit n c = generic_visit n (c + own_increment n).
Proof.
  unfold generic_visit.
  assert (Hall : forall l, Forall (fun x => forall c, visit x c = c + subtree_total x) l).
  { intros l. apply Forall_forall. intros x _. apply visit_total. }
  rewrite visit_children by apply Hall.
  rewrite visit_total, subtree_total_children. lia.
Qed.

Lemma own_increment_counts (l : list node) :
  sumZ (map own_increment l) =
    Z.of_nat (length (List.filter (is_kind If) l))
    + Z.of_nat (length (List.filter (is_kind For) l))
    + Z.of_nat (length (List.filter (is_kind While) l))
    + Z.of_nat (length (List.filter (is_kind ExceptHandler) l))
    + Z.of_nat (length (List.filter (is_kind With) l))
    + sumZ (map boolop_extra l).
Proof.
  induction l as [|x l IH]; [reflexivity|].
  change (sumZ (map own_increment (x :: l)))
    with (own_increment x + sumZ (map own_increment l)).
  change (sumZ (map boolop_extra (x :: l)))
    with (boolop_extra x + sumZ (map boolop_extra l)).
  rewrite IH. clear IH.
  destruct x as [k ch| | | | |]; simpl; try lia.
  destruct k; simpl; lia.
Qed.

(** C1: the complexity the visitor computes for a function is the base 1,
    plus one per [if], [for], [while], exception handler and [with]
    anywhere in its subtree, plus (operand count - 1) per boolean
    expression; so a function with one conditional, one loop and
    nothing else counted has complexity 3, and a boolean expression of
    four operands adds 3 before its operands are visited. *)
Theorem complexity_is_spec_complexity (fn : node) :
  function_complexity fn = spec_complexity fn
  /\ (count_kind If fn = 1 ->
      count_kind For fn + count_kind While fn = 1 ->
      count_kind ExceptHandler fn = 0 ->
      count_kind With fn = 0 ->
      boolop_total fn = 0 ->
      function_complexity fn = 3)
  /\ (forall op a b c d k,
        visit (BoolOp op [a; b; c; d]) k
        = visit d (visit c (visit b (visit a (k + 3))))).
Proof.
  assert (Hspec : function_complexity fn = spec_complexity fn).
  { unfold function_complexity, spec_complexity, count_kind, boolop_total.
    rewrite visit_total. unfold subtree_total.
    rewrite own_increment_counts. lia. }
  split; [exact Hspec|]. split.
  - intros H_if H_loop H_handler H_with H_bool.
    rewrite Hspec. unfold spec_complexity. lia.
  - intros op a b c d k. reflexivity.
Qed.

(** [def f(xs): if xs: for x in xs: pass] *)
Lemma complexity_is_spec_complexity_witness :
  function_complexity
    (FunctionDef (mkHeader "f" 1 0 (Some 3)) [] [Node OtherNode []] []
       [Node If [Node OtherNode [];
                 Node For [Node OtherNode []; Node OtherNode []; Node OtherNode []]]]
       []) = 3.
Proof.
  apply (proj1 (proj2 (complexity_is_spec_complexity _))); reflexivity.
Defined.

End Complexity.

(** ** The walk over the tree *)

Section Walk.

Lemma forest_nodes_cons (n : node) (q : list node) :
  length (flat_map subnodes (n :: q))
  = S (length (flat_map subnodes (q ++ iter_child_nodes n))).
Proof.
  simpl. rewrite (subnodes_children n), flat_map_app. simpl.
  rewrite !length_app. lia.
Qed.

(** With fuel for every node of the queue's subtrees, the walk yields
    each of them exactly once. *)
Lemma walk_todo_subnodes (fuel : nat) : forall todo,
  (length (flat_map subnodes todo) <= fuel)%nat ->
  walk_todo fuel todo ≡ₚ flat_map subnodes todo.
Proof.
  induction fuel as [|fuel IH]; intros [|n q] Hfuel; try reflexivity.
  - rewrite forest_nodes_cons in Hfuel. lia.
  - rewrite forest_nodes_cons in Hfuel.
    simpl. rewrite IH by lia.
    rewrite flat_map_app, (subnodes_children n). simpl.
    constructor. apply Permutation_app_comm.
Qed.

Lemma walk_subnodes (tree : node) : walk tree ≡ₚ subnodes tree.
Proof.
  unfold walk. rewrite walk_todo_subnodes.
  - simpl. by rewrite app_nil_r.
  - unfold node_count. simpl. rewrite app_nil_r. lia.
Qed.

(** More fuel than the nodes need changes nothing. *)
Lemma walk_todo_fuel (fuel : nat) : forall todo extra,
  (length (flat_map subnodes todo) <= fuel)%nat ->
  walk_todo (fuel + extra) todo = walk_todo fuel todo.
Proof.
  induction fuel as [|fuel IH]; intros [|n q] extra Hfuel;
    try rewrite forest_nodes_cons in Hfuel; try lia.
  - by destruct extra.
  - reflexivity.
  - simpl. f_equal. apply IH. lia.
Qed.

End Walk.

(** ** The structural analyzer *)

Section Analyzer.
Import AstAnalyzer.

Lemma or_0_default (x : option Z) : or_0 x = default 0 x.
Proof.
  destruct x as [v|]; simpl; [|reflexivity].
  destruct (Z.eqb_spec v 0); congruence.
Qed.

(** C2: [analyze_file] returns a list of findings for each of the three
    outcomes of reading and parsing, so nothing escapes it.  A syntax
    error gives exactly one finding: bug, critical,
    AST001, at the parser's line and column (0 where it reports none),
    with the parser's message in the text.  Any other exception gives
    exactly one finding: bug, high, AST000, located by the file alone. *)
Theorem analyze_file_failure_findings (threshold : Z) (file_path : string) :
  (forall e_lineno e_offset e_msg,
     analyze_file threshold file_path (SyntaxError e_lineno e_offset e_msg)
     = [mkFinding BUG CRITICAL
          (mkLocation file_path (Some (default 0 e_lineno))
             (Some (default 0 e_offset)) None None)
          ("Syntax error: " +:+ e_msg) (Some "AST001") false])
  /\ (forall str_e,
        analyze_file threshold file_path (OtherException str_e)
        = [mkFinding BUG HIGH (mkLocation file_path None None None None)
             ("Failed to analyze file: " +:+ str_e) (Some "AST000") false])
  /\ (forall tree,
        analyze_file threshold file_path (Parsed tree)
        = _analyze_tree threshold tree file_path).
Proof.
  split; [|split].
  - intros. simpl. by rewrite !or_0_default.
  - reflexivity.
  - reflexivity.
Qed.

Lemma analyze_function_complexity_part threshold file_path h po a r body rest :
  let c := function_complexity (FunctionDef h po a r body rest) in
  exists others,
    _analyze_function threshold file_path h po a r body rest
    = (if threshold <? c then [complexity_finding threshold file_path h c] else [])
      ++ others
    /\ Forall (fun f => type f <> COMPLEXITY /\ rule_id f <> Some "AST100") others.
Proof.
  intros c. unfold _analyze_function. fold c.
  set (first := if threshold <? c then _ else _).
  assert (Hfirst : first
    = (if threshold <? c then [complexity_finding threshold file_path h c] else [])).
  { subst first. by destruct (threshold <? c). }
  rewrite Hfirst. clear Hfirst first.
  set (cf := if threshold <? c then _ else _).
  destruct (7 <? length a)%nat; destruct (end_lineno h) as [e|];
    try destruct (e =? 0); try destruct (50 <? e - lineno h);
    rewrite <- ?app_assoc; eexists; (split; [try reflexivity; by rewrite app_nil_r|]);
    repeat constructor; simpl; congruence.
Qed.

(** C4: the analyzer emits a complexity finding with rule AST100 for a
    function exactly when its complexity exceeds the threshold; the
    finding is high when the complexity exceeds twice the threshold and
    medium otherwise, and its message names the function and the
    complexity. *)
Theorem complexity_finding_iff_over_threshold
    (threshold : Z) (file_path : string)
    (h : def_header) (po a r body rest : list node) :
  let c := function_complexity (FunctionDef h po a r body rest) in
  let findings := _analyze_function threshold file_path h po a r body rest in
  List.filter (fun f => bool_decide (rule_id f = Some "AST100")) findings
    = (if threshold <? c then [complexity_finding threshold file_path h c] else [])
  /\ List.filter (fun f => bool_decide (type f = COMPLEXITY)) findings
    = (if threshold <? c then [complexity_finding threshold file_path h c] else [])
  /\ ((exists f, f ∈ findings /\ type f = COMPLEXITY /\ rule_id f = Some "AST100")
      <-> threshold < c)
  /\ (severity (complexity_finding threshold file_path h c) = HIGH
      <-> 2 * threshold < c)
  /\ (severity (complexity_finding threshold file_path h c) = MEDIUM
      <-> c <= 2 * threshold)
  /\ message (complexity_finding threshold file_path h c)
     = "Function '" +:+ name h +:+ "' has high cyclomatic complexity ("
         +:+ str_int c +:+ ")".
Proof.
  intros c findings.
  destruct (analyze_function_complexity_part threshold file_path h po a r body rest)
    as (others & Heq & Hothers).
  fold c findings in Heq.
  assert (Hrule : List.filter (fun f => bool_decide (rule_id f = Some "AST100")) others = []).
  { clear Heq. induction Hothers as [|f l [_ Hf] _ IH]; [reflexivity|].
    simpl. rewrite bool_decide_eq_false_2 by exact Hf. exact IH. }
  assert (Htype : List.filter (fun f => bool_decide (type f = COMPLEXITY)) others = []).
  { clear Heq Hrule. induction Hothers as [|f l [Hf _] _ IH]; [reflexivity|].
    simpl. rewrite bool_decide_eq_false_2 by exact Hf. exact IH. }
  repeat split.
  - rewrite Heq, List.filter_app, Hrule, app_nil_r. by destruct (threshold <? c).
  - rewrite Heq, List.filter_app, Htype, app_nil_r. by destruct (threshold <? c).
  - intros (f & Hin & Hty & _). rewrite Heq in Hin.
    apply elem_of_app in Hin as [Hin|Hin].
    + destruct (Z.ltb_spec threshold c); [assumption|]. by apply elem_of_nil in Hin.
    + rewrite Forall_forall in Hothers. by destruct (Hothers f Hin).
  - intros Hlt. exists (complexity_finding threshold file_path h c).
    split; [|done]. rewrite Heq. apply elem_of_app. left.
    destruct (Z.ltb_spec threshold c); [|lia]. apply list_elem_of_here.
  - simpl. destruct (Z.ltb_spec (threshold * 2) c); [lia|discriminate].
  - simpl. destruct (Z.ltb_spec (threshold * 2) c); [done|lia].
  - simpl. destruct (Z.ltb_spec (threshold * 2) c); [discriminate|lia].
  - simpl. destruct (Z.ltb_spec (threshold * 2) c); [lia|done].
Qed.

(** A function of eleven nested [if]s under the default threshold. *)
Lemma complexity_finding_iff_over_threshold_witness :
  exists f,
    f ∈ _analyze_function default_complexity_threshold "m.py"
          (mkHeader "deep" 1 0 (Some 13)) [] [] []
          [Nat.iter 11 (fun inner => Node If [Node OtherNode []; inner])
             (Node OtherNode [])] []
    /\ type f = COMPLEXITY /\ rule_id f = Some "AST100".
Proof.
  apply (proj1 (proj2 (proj2 (complexity_finding_iff_over_threshold
    default_complexity_threshold "m.py" (mkHeader "deep" 1 0 (Some 13)) [] [] []
    [Nat.iter 11 (fun inner => Node If [Node OtherNode []; inner])
       (Node OtherNode [])] [])))).
  reflexivity.
Defined.

Lemma analyze_tree_nodes threshold file_path tree :
  _analyze_tree threshold tree file_path
  = flat_map (analyze_node threshold file_path)
      (List.filter (fun n => is_FunctionDef n || is_ClassDef n) (walk tree)).
Proof.
  unfold _analyze_tree. induction (walk tree) as [|n l IH]; [reflexivity|].
  simpl. destruct n; simpl; rewrite IH; reflexivity.
Qed.

(** C9: an [async def] node contributes no finding to the walk; the
    findings of a tree are those of its synchronous function
    definitions and its classes, so a tree without either yields none
    whatever its async functions hold; and the method count of a class
    ignores the async definitions in its body. *)
Theorem async_definitions_yield_nothing (threshold : Z) (file_path : string) :
  (forall h po a r body rest,
     analyze_node threshold file_path (AsyncFunctionDef h po a r body rest) = [])
  /\ (forall tree,
        _analyze_tree threshold tree file_path
        = flat_map (analyze_node threshold file_path)
            (List.filter (fun n => is_FunctionDef n || is_ClassDef n) (walk tree)))
  /\ (forall tree,
        forallb (fun n => negb (is_FunctionDef n || is_ClassDef n)) (subnodes tree)
          = true ->
        _analyze_tree threshold tree file_path = [])
  /\ (forall h heads body rest,
        _analyze_class file_path h heads body rest
        = _analyze_class file_path h heads
            (List.filter (fun n => negb (is_AsyncFunctionDef n)) body) rest)
  /\ (forall h heads body rest,
        _analyze_class file_path h heads body rest <> []
        <-> (20 < length (List.filter is_FunctionDef body))%nat).
Proof.
  split; [|split; [|split; [|split]]].
  - reflexivity.
  - intros tree. apply analyze_tree_nodes.
  - intros tree Hnone. rewrite analyze_tree_nodes.
    assert (Hwalk : forallb (fun n => negb (is_FunctionDef n || is_ClassDef n))
                      (walk tree) = true).
    { rewrite forallb_forall in *. intros n Hn. apply Hnone.
      apply list_elem_of_In. rewrite <- (walk_subnodes tree).
      by apply list_elem_of_In. }
    induction (walk tree) as [|n l IH]; [reflexivity|].
    simpl in Hwalk. apply andb_prop in Hwalk as [Hn Hl].
    simpl. apply negb_true_iff in Hn. rewrite Hn. by apply IH.
  - intros h heads body rest. unfold _analyze_class.
    assert (Hsame : List.filter is_FunctionDef
                      (List.filter (fun n => negb (is_AsyncFunctionDef n)) body)
                    = List.filter is_FunctionDef body).
    { induction body as [|n l IH]; [reflexivity|].
      destruct n; simpl; rewrite ?IH; reflexivity. }
    by rewrite Hsame.
  - intros h heads body rest. unfold _analyze_class.
    destruct (Nat.ltb_spec 20 (length (List.filter is_FunctionDef body)));
      split; try done; lia.
Qed.

(** A module holding one async function of eleven nested [if]s and
    nine parameters, ninety lines long. *)
Lemma async_definitions_yield_nothing_witness :
  _analyze_tree default_complexity_threshold
    (Node Module_
       [AsyncFunctionDef (mkHeader "fetch" 1 0 (Some 91)) []
          (replicate 9 (Node OtherNode [])) []
          [Nat.iter 11 (fun inner => Node If [Node OtherNode []; inner])
             (Node OtherNode [])] []])
    "m.py" = [].
Proof.
  apply (proj1 (proj2 (proj2
    (async_definitions_yield_nothing default_complexity_threshold "m.py")))).
  reflexivity.
Defined.

End Analyzer.

(** ** The summary builder *)

Section Counters.
Import Cli.
Context `{Countable K}.

Lemma sum_values_insert_new (m : gmap K nat) (k : K) (v : nat) :
  m !! k = None -> sum_values (<[k:=v]> m) = (v + sum_values m)%nat.
Proof.
  intros Hk. unfold sum_values.
  rewrite map_fold_insert_L; [reflexivity| |assumption].
  intros. lia.
Qed.

Lemma sum_values_delete (m : gmap K nat) (k : K) (v : nat) :
  m !! k = Some v -> sum_values m = (v + sum_values (delete k m))%nat.
Proof.
  intros Hk. unfold sum_values.
  rewrite (map_fold_delete_L _ _ k v m); [reflexivity| |assumption].
  intros. lia.
Qed.

(** [counter[key] += 1] raises the sum of the values by one. *)
Lemma sum_values_increment (m : gmap K nat) (k : K) :
  sum_values (increment k m) = S (sum_values m).
Proof.
  unfold increment. destruct (m !! k) as [v|] eqn:Hk; simpl.
  - rewrite <- insert_delete_eq.
    rewrite sum_values_insert_new by apply lookup_delete_eq.
    rewrite (sum_values_delete m k v Hk). lia.
  - by rewrite sum_values_insert_new.
Qed.

Lemma lookup_increment (m : gmap K nat) (k k' : K) :
  increment k m !! k'
  = if decide (k = k') then Some (S (default 0%nat (m !! k'))) else m !! k'.
Proof.
  unfold increment. rewrite lookup_insert. destruct (decide (k = k')) as [->|]; [|done].
  f_equal. lia.
Qed.

Variable A : Type.
Variable key : A -> K.

Lemma sum_values_tally (l : list A) : forall m,
  sum_values (foldl (fun counts x => increment (key x) counts) m l)
  = (sum_values m + length l)%nat.
Proof.
  induction l as [|x l IH]; intros m; simpl; [lia|].
  rewrite IH, sum_values_increment. lia.
Qed.

Lemma lookup_tally (l : list A) (k : K) : forall m,
  let counts := foldl (fun counts x => increment (key x) counts) m l in
  let n := length (List.filter (fun x => bool_decide (key x = k)) l) in
  default 0%nat (counts !! k) = (default 0%nat (m !! k) + n)%nat
  /\ (counts !! k = None <-> m !! k = None /\ n = 0%nat).
Proof.
  induction l as [|x l IH]; intros m; simpl.
  - split; [lia|]. tauto.
  - destruct (IH (increment (key x) m)) as [IHv IHn].
    simpl in IHv, IHn. rewrite IHv, IHn, lookup_increment.
    destruct (decide (key x = k)) as [Heq|Hne].
    + rewrite bool_decide_eq_true_2 by assumption. simpl.
      split; [lia|]. split; [intros [? _]; discriminate|intros [_ ?]; lia].
    + rewrite bool_decide_eq_false_2 by assumption. tauto.
Qed.

(** A counter built from the empty one holds, for each key, the number
    of its occurrences, and no entry for a key that never occurs. *)
Lemma lookup_tally_empty (l : list A) (k : K) :
  let n := length (List.filter (fun x => bool_decide (key x = k)) l) in
  foldl (fun counts x => increment (key x) counts) ∅ l !! k
  = if decide (n = 0%nat) then None else Some n.
Proof.
  intros n. destruct (lookup_tally l k ∅) as [Hv Hn]. fold n in Hv, Hn.
  rewrite lookup_empty in Hv, Hn. simpl in Hv.
  destruct (foldl _ ∅ l !! k) as [v|] eqn:Hlook; simpl in Hv.
  - destruct (decide (n = 0%nat)) as [Hz|_]; [|by subst].
    assert (Hnone : Some v = None) by (apply Hn; done). discriminate.
  - destruct (decide (n = 0%nat)) as [_|Hnz]; [done|].
    destruct Hn as [Hn _]. destruct (Hn eq_refl). done.
Qed.

End Counters.

Section Summary.
Import Cli.

Lemma size_list_to_set_distinct (l : list string) :
  size (list_to_set l : gset string) = length (remove_dups l).
Proof.
  rewrite <- (size_list_to_set (C := gset string) (remove_dups l))
    by apply NoDup_remove_dups.
  f_equal. apply set_eq. intros x.
  by rewrite !elem_of_list_to_set, elem_of_remove_dups.
Qed.

(** C3: in the summary of N findings the severity counts and the type
    counts each sum to N and [total_findings] is N; a severity or type
    that no finding has is absent from its mapping, any other is mapped
    to its number of findings; [total_files] is the number of distinct
    files of the findings, or the supplied count of source files when
    there is no finding. *)
Theorem summary_counts (findings : list Finding) (python_files_count : nat) :
  let s := _generate_summary findings python_files_count in
  sum_values (findings_by_severity s) = length findings
  /\ sum_values (findings_by_type s) = length findings
  /\ total_findings s = length findings
  /\ (forall sev,
        findings_by_severity s !! sev
        = let n := count_if (is_severity sev) findings in
          if decide (n = 0%nat) then None else Some n)
  /\ (forall ty,
        findings_by_type s !! ty
        = let n := count_if (is_type ty) findings in
          if decide (n = 0%nat) then None else Some n)
  /\ total_files s
     = match findings with
       | [] => python_files_count
       | _ :: _ => distinct_files findings
       end
  /\ python_files s = python_files_count.
Proof.
  simpl. split; [|split; [|split; [|split; [|split; [|split]]]]].
  - rewrite sum_values_tally. unfold sum_values. by rewrite map_fold_empty.
  - rewrite sum_values_tally. unfold sum_values. by rewrite map_fold_empty.
  - reflexivity.
  - intros sev. apply (lookup_tally_empty Finding severity findings sev).
  - intros ty. apply (lookup_tally_empty Finding type findings ty).
  - destruct findings as [|f l]; [reflexivity|].
    destruct (decide _) as [Hempty|_].
    + exfalso. simpl in Hempty.
      assert (Hin : file (location f)
                      ∈ ({[file (location f)]} ∪ list_to_set
                           (map (fun f => file (location f)) l) : gset string))
        by set_solver.
      rewrite Hempty in Hin. set_solver.
    + unfold distinct_files. apply size_list_to_set_distinct.
  - reflexivity.
Qed.

End Summary.

(** ** The recommendation synthesizer *)

Section Recommendations.
Import Cli.

(** The output is the seven rules' outputs in order, each rule reading
    one statistic of the findings or the repository metrics. *)
Lemma recommendations_by_rule (findings : list Finding)
    (git_metrics : option GitMetrics) :
  _generate_recommendations findings git_metrics
  = critical_rule (count_if (is_severity CRITICAL) findings)
    ++ high_rule (count_if (is_severity HIGH) findings)
    ++ complexity_rule (count_if (is_type COMPLEXITY) findings)
    ++ type_error_rule (count_if (is_type TYPE_ERROR) findings)
    ++ hot_spot_rule git_metrics
    ++ large_file_rule git_metrics
    ++ fixable_rule (count_if fix_available findings).
Proof.
  unfold _generate_recommendations, critical_rule, high_rule, complexity_rule,
    type_error_rule, hot_spot_rule, large_file_rule, fixable_rule, count_if.
  destruct (0 <? length (List.filter (is_severity CRITICAL) findings))%nat;
  destruct (5 <? length (List.filter (is_severity HIGH) findings))%nat;
  destruct (5 <? length (List.filter (is_type COMPLEXITY) findings))%nat;
  destruct (10 <? length (List.filter (is_type TYPE_ERROR) findings))%nat;
  destruct (0 <? length (List.filter fix_available findings))%nat;
  destruct git_metrics as [[? ? [|] [|] ?]|]; reflexivity.
Qed.

Lemma no_urgent_without_critical (findings : list Finding) git_metrics :
  count_if (is_severity CRITICAL) findings = 0%nat ->
  Forall (fun r => priority r <> P_URGENT)
    (_generate_recommendations findings git_metrics).
Proof.
  intros Hzero. rewrite recommendations_by_rule, Hzero.
  unfold critical_rule, high_rule, complexity_rule,
    type_error_rule, hot_spot_rule, large_file_rule, fixable_rule.
  simpl.
  repeat (apply Forall_app; split);
    repeat case_match; repeat constructor; simpl; congruence.
Qed.

(** C7, amended: when the critical count goes from 0 to 1 and the
    statistics that the other rules test (the high-severity count, the
    complexity-type count, the type_error-type count and the fixable
    count) stay the same, the synthesizer emits exactly one more
    recommendation, of urgent priority, ahead of the others, which are
    unchanged; every rule is a threshold check on its own statistic. *)
Theorem one_critical_adds_one_urgent
    (findings findings' : list Finding) (git_metrics : option GitMetrics) :
  (_generate_recommendations findings git_metrics
   = critical_rule (count_if (is_severity CRITICAL) findings)
     ++ high_rule (count_if (is_severity HIGH) findings)
     ++ complexity_rule (count_if (is_type COMPLEXITY) findings)
     ++ type_error_rule (count_if (is_type TYPE_ERROR) findings)
     ++ hot_spot_rule git_metrics
     ++ large_file_rule git_metrics
     ++ fixable_rule (count_if fix_available findings))
  /\ (count_if (is_severity CRITICAL) findings = 0%nat ->
      count_if (is_severity CRITICAL) findings' = 1%nat ->
      count_if (is_severity HIGH) findings' = count_if (is_severity HIGH) findings ->
      count_if (is_type COMPLEXITY) findings' = count_if (is_type COMPLEXITY) findings ->
      count_if (is_type TYPE_ERROR) findings' = count_if (is_type TYPE_ERROR) findings ->
      count_if fix_available findings' = count_if fix_available findings ->
      _generate_recommendations findings' git_metrics
      = urgent_for_one :: _generate_recommendations findings git_metrics
      /\ priority urgent_for_one = P_URGENT
      /\ Forall (fun r => priority r <> P_URGENT)
           (_generate_recommendations findings git_metrics)).
Proof.
  split; [apply recommendations_by_rule|].
  intros Hzero Hone Hhigh Hcomplexity Htype Hfix.
  split; [|split; [reflexivity|by apply no_urgent_without_critical]].
  rewrite !recommendations_by_rule.
  rewrite Hzero, Hone, Hhigh, Hcomplexity, Htype, Hfix. reflexivity.
Qed.

(** Ten type errors, then one unparsable file. *)
Lemma one_critical_adds_one_urgent_witness :
  _generate_recommendations
    (replicate 10 (type_error_finding MEDIUM "arg-type") ++ [syntax_error_finding])
    None
  = urgent_for_one
    :: _generate_recommendations (replicate 10 (type_error_finding MEDIUM "arg-type"))
         None.
Proof.
  apply (proj2 (one_critical_adds_one_urgent
    (replicate 10 (type_error_finding MEDIUM "arg-type"))
    (replicate 10 (type_error_finding MEDIUM "arg-type") ++ [syntax_error_finding])
    None)); reflexivity.
Defined.

(** C7 as stated fails: ten type errors have no critical finding; one
    more type error, of the critical code [syntax], brings the critical
    count to 1 and the synthesizer answers with two recommendations
    more, the second of high priority. *)
Lemma critical_type_error_adds_two :
  count_if (is_severity CRITICAL)
    (replicate 10 (type_error_finding MEDIUM "arg-type")) = 0%nat
  /\ count_if (is_severity CRITICAL)
       (replicate 10 (type_error_finding MEDIUM "arg-type")
          ++ [type_error_finding CRITICAL "syntax"]) = 1%nat
  /\ _generate_recommendations
       (replicate 10 (type_error_finding MEDIUM "arg-type")) None = []
  /\ map (fun r => (priority r, category r))
       (_generate_recommendations
          (replicate 10 (type_error_finding MEDIUM "arg-type")
             ++ [type_error_finding CRITICAL "syntax"]) None)
     = [(P_URGENT, "Critical Issues"); (P_HIGH, "Type Safety")].
Proof. repeat split. Qed.

End Recommendations.

(** ** The structured (linter) parser *)

Section Ruff.
Import Json RuffAnalyzer.

(** C6 as stated fails.  The text [NaN] is no JSON, yet [json.loads]
    returns a float for it, and the loop over the float raises
    [TypeError]; on an array that is never closed and holds an integer
    of 5000 digits [json.loads] raises a plain [ValueError].  Neither
    is caught by the parser, which raises; the adapter reports the run
    as one finding of rule RUFF002, of severity high. *)
Lemma not_valid_json_raises :
  _parse_ruff_output int_only loads_NaN = Raise TypeError
  /\ _parse_ruff_output int_only loads_unclosed_long_integer = Raise ValueError
  /\ RuffAnalyzer.analyze_directory int_only (fun _ => "'float' object is not iterable")
       "repo" (Completed "NaN") loads_NaN
     = [mkFinding BUG HIGH (mkLocation "repo" None None None None)
          "Failed to run ruff: 'float' object is not iterable"
          (Some "RUFF002") false].
Proof. repeat split; reflexivity. Qed.

(** C6, amended: when [json.loads] raises [json.JSONDecodeError],
    [_parse_ruff_output] returns normally with exactly one finding, of
    type bug and severity medium, whose message reports the parse
    failure with the decoder's text.  When [json.loads] raises another
    exception, or returns a float, an integer, a boolean or null, the
    parser raises; whenever the parser raises, the adapter returns the
    single finding of rule RUFF002. *)
Theorem invalid_json_one_finding (int_validator : json -> option Z) :
  (forall str_e,
     exists f,
       _parse_ruff_output int_validator (JSONDecodeError str_e) = Ok [f]
       /\ type f = BUG
       /\ severity f = MEDIUM
       /\ message f = "Failed to parse ruff output: " +:+ str_e
       /\ rule_id f = Some "RUFF003"
       /\ location f = mkLocation "ruff_output" None None None None
       /\ fix_available f = false)
  /\ (forall e, _parse_ruff_output int_validator (LoadsRaised e) = Raise e)
  /\ (forall repr n b,
        _parse_ruff_output int_validator (Loaded (JFloat repr)) = Raise TypeError
        /\ _parse_ruff_output int_validator (Loaded (JInt n)) = Raise TypeError
        /\ _parse_ruff_output int_validator (Loaded (JBool b)) = Raise TypeError
        /\ _parse_ruff_output int_validator (Loaded JNull) = Raise TypeError)
  /\ (forall str_exn directory c stdout loaded,
        match _parse_ruff_output int_validator loaded with
        | Ok findings =>
            RuffAnalyzer.analyze_directory int_validator str_exn directory
              (Completed (String c stdout)) loaded = findings
        | Raise e =>
            RuffAnalyzer.analyze_directory int_validator str_exn directory
              (Completed (String c stdout)) loaded
            = [mkFinding BUG HIGH (mkLocation directory None None None None)
                 ("Failed to run ruff: " +:+ str_exn e) (Some "RUFF002") false]
        end).
Proof.
  split; [|split; [|split]].
  - intros str_e. eexists. split; [reflexivity|]. simpl. repeat split.
  - reflexivity.
  - intros repr n b. repeat split.
  - intros str_exn directory c stdout loaded.
    unfold RuffAnalyzer.analyze_directory.
    destruct (decide (String c stdout = "")) as [Heq|_]; [discriminate Heq|].
    by destruct (_parse_ruff_output int_validator loaded).
Qed.

Lemma append_nil_r (s : string) : s +:+ "" = s.
Proof. induction s as [|c s IH]; [reflexivity|]. unfold String.append in *. by rewrite IH at 1. Qed.

Lemma append_assoc (s1 s2 s3 : string) : (s1 +:+ s2) +:+ s3 = s1 +:+ (s2 +:+ s3).
Proof.
  induction s1 as [|c s1 IH]; [reflexivity|].
  change (String c ((s1 +:+ s2) +:+ s3) = String c (s1 +:+ (s2 +:+ s3))).
  by rewrite IH.
Qed.

(** The loop keeps what it has when it meets a character that is not
    alphabetic, and otherwise appends it. *)
Lemma leading_alpha_acc (chars prefix : string) :
  leading_alpha chars prefix = prefix +:+ leading_alpha chars "".
Proof.
  revert prefix. induction chars as [|c chars IH]; intros prefix; simpl.
  - by rewrite append_nil_r.
  - destruct (Re.is_alpha c); [|by rewrite append_nil_r].
    rewrite IH. rewrite (IH ("" +:+ String c "")).
    by rewrite <- append_assoc.
Qed.

Lemma leading_alpha_cons (c : ascii) (chars : string) :
  leading_alpha (String c chars) ""
  = if Re.is_alpha c then String c (leading_alpha chars "") else "".
Proof.
  simpl. destruct (Re.is_alpha c); [|reflexivity].
  by rewrite leading_alpha_acc.
Qed.

Lemma leading_alpha_all_alpha (chars : string) :
  Re.all_chars Re.is_alpha (leading_alpha chars "") = true.
Proof.
  induction chars as [|c chars IH]; [reflexivity|].
  rewrite leading_alpha_cons.
  destruct (Re.is_alpha c) eqn:Hc; [|reflexivity].
  simpl. by rewrite Hc, IH.
Qed.

(** The key is the longest alphabetic prefix of the rule code. *)
Lemma leading_alpha_maximal (chars : string) :
  exists rest,
    chars = leading_alpha chars "" +:+ rest
    /\ match rest with
       | EmptyString => True
       | String c _ => Re.is_alpha c = false
       end.
Proof.
  induction chars as [|c chars (rest & Heq & Hrest)].
  - by exists "".
  - rewrite leading_alpha_cons. destruct (Re.is_alpha c) eqn:Hc.
    + exists rest. split; [|assumption].
      change (String c chars = String c (leading_alpha chars "" +:+ rest)).
      by rewrite <- Heq.
    + by exists (String c chars).
Qed.

(** C10: the severity lookup keys the table by the longest leading run
    of alphabetic characters of the rule code; that key is never "C4"
    or "T20", the two entries with a digit, so every code that begins
    "C4" or "T20" gets the fallback medium although the table lists
    low for both. *)
Theorem digit_keys_never_match :
  (forall rule_code,
     _get_severity_for_rule rule_code
     = default MEDIUM (SEVERITY_MAP !! leading_alpha rule_code ""))
  /\ (forall rule_code,
        Re.all_chars Re.is_alpha (leading_alpha rule_code "") = true
        /\ exists rest,
             rule_code = leading_alpha rule_code "" +:+ rest
             /\ match rest with
                | EmptyString => True
                | String c _ => Re.is_alpha c = false
                end)
  /\ (forall rule_code,
        leading_alpha rule_code "" <> "C4" /\ leading_alpha rule_code "" <> "T20")
  /\ SEVERITY_MAP !! "C4" = Some LOW
  /\ SEVERITY_MAP !! "T20" = Some LOW
  /\ (forall rest, _get_severity_for_rule ("C4" +:+ rest) = MEDIUM)
  /\ (forall rest, _get_severity_for_rule ("T20" +:+ rest) = MEDIUM)
  /\ _get_severity_for_rule "C408" = MEDIUM
  /\ _get_severity_for_rule "T201" = MEDIUM.
Proof.
  split; [reflexivity|]. split.
  { intros rule_code. split; [apply leading_alpha_all_alpha|apply leading_alpha_maximal]. }
  split.
  { intros rule_code.
    pose proof (leading_alpha_all_alpha rule_code) as Halpha.
    split; intros Heq; rewrite Heq in Halpha; discriminate. }
  repeat split.
Qed.

End Ruff.

(** ** The pattern matcher *)

Section Matcher.
Import Re.

Lemma star_greedy_sound {A} p (k : mstate -> option A) s : forall pv g x,
  star_greedy p k pv s g = Some x ->
  exists w s' pv', all_chars p w = true /\ s = w +:+ s'
    /\ k (mkState pv' s' g) = Some x.
Proof.
  induction s as [|c s IH]; intros pv g x Hrun; simpl in Hrun.
  - by exists "", "", pv.
  - destruct (p c) eqn:Hc.
    + destruct (star_greedy p k (Some c) s g) as [y|] eqn:Hmore.
      * injection Hrun as ->.
        destruct (IH _ _ _ Hmore) as (w & s' & pv' & Hw & -> & Hk).
        exists (String c w), s', pv'. simpl. by rewrite Hc, Hw.
      * by exists "", (String c s), pv.
    + by exists "", (String c s), pv.
Qed.

Lemma star_lazy_sound {A} p (k : mstate -> option A) s : forall pv g x,
  star_lazy p k pv s g = Some x ->
  exists w s' pv', all_chars p w = true /\ s = w +:+ s'
    /\ k (mkState pv' s' g) = Some x.
Proof.
  induction s as [|c s IH]; intros pv g x Hrun; simpl in Hrun.
  - destruct (k (mkState pv "" g)) eqn:Hk; [|discriminate].
    exists "", "", pv. by rewrite Hk.
  - destruct (k (mkState pv (String c s) g)) eqn:Hk.
    + exists "", (String c s), pv. by rewrite Hk.
    + destruct (p c) eqn:Hc; [|discriminate].
      destruct (IH _ _ _ Hrun) as (w & s' & pv' & Hw & -> & Hk').
      exists (String c w), s', pv'. simpl. by rewrite Hc, Hw.
Qed.

(** A successful search passed through a state that [r] reaches and on
    which the continuation succeeded. *)
Lemma exec_sound {A} (r : regex) : forall (k : mstate -> option A) st x,
  exec r k st = Some x -> exists st', reach r st st' /\ k st' = Some x.
Proof.
  induction r as [| | |c|p|p|r1 IH1 r2 IH2|r IH|name r IH]; intros k st x Hrun;
    simpl in Hrun.
  - by exists st.
  - destruct (at_bol st) eqn:Hb; [|discriminate]. by exists st.
  - destruct (at_eol st) eqn:Hb; [|discriminate]. by exists st.
  - destruct (rest st) as [|c' s'] eqn:Hrest; [discriminate|].
    destruct (Ascii.eqb_spec c' c) as [->|]; [|discriminate].
    eexists. split; [|exact Hrun]. simpl. by exists s'.
  - destruct (rest st) as [|c s'] eqn:Hrest; [discriminate|].
    destruct (p c) eqn:Hc; [|discriminate].
    destruct (star_greedy_sound _ _ _ _ _ _ Hrun) as (w & s'' & pv' & Hw & -> & Hk).
    eexists. split; [|exact Hk]. simpl. by exists c, w.
  - destruct (rest st) as [|c s'] eqn:Hrest; [discriminate|].
    destruct (p c) eqn:Hc; [|discriminate].
    destruct (star_lazy_sound _ _ _ _ _ _ Hrun) as (w & s'' & pv' & Hw & -> & Hk).
    eexists. split; [|exact Hk]. simpl. by exists c, w.
  - destruct (IH1 _ _ _ Hrun) as (mid & Hmid & Hrun2).
    destruct (IH2 _ _ _ Hrun2) as (st' & Hst' & Hk).
    exists st'. split; [|exact Hk]. simpl. by exists mid.
  - destruct (exec r k st) as [y|] eqn:Hr.
    + injection Hrun as ->. destruct (IH _ _ _ Hr) as (st' & Hst' & Hk).
      exists st'. split; [|exact Hk]. by left.
    + exists st. split; [|exact Hrun]. by right.
  - destruct (IH _ _ _ Hrun) as (mid & Hmid & Hk).
    eexists. split; [|exact Hk]. simpl. by exists mid.
Qed.

Lemma length_append (s1 s2 : string) :
  String.length (s1 +:+ s2) = (String.length s1 + String.length s2)%nat.
Proof.
  induction s1 as [|c s1 IH]; [reflexivity|].
  change (S (String.length (s1 +:+ s2)) = S (String.length s1 + String.length s2)).
  by rewrite IH.
Qed.

Lemma take_str_append (w s : string) : take_str (String.length w) (w +:+ s) = w.
Proof.
  induction w as [|c w IH]; [by destruct s|].
  change (String c (take_str (String.length w) (w +:+ s)) = String c w).
  by rewrite IH.
Qed.

(** The text a group takes is the text its pattern passed over. *)
Lemma consumed_run (c : ascii) (w : string) (from to : mstate) :
  rest from = String c (w +:+ rest to) -> consumed from to = String c w.
Proof.
  intros Hrest. unfold consumed. rewrite Hrest.
  change (String c (w +:+ rest to)) with (String c w +:+ rest to).
  rewrite length_append.
  replace (String.length (String c w) + String.length (rest to)
           - String.length (rest to))%nat
    with (String.length (String c w)) by lia.
  apply take_str_append.
Qed.

(** Every match that [finditer] yields is a match of the pattern at
    some position. *)
Lemma scan_matches (r : regex) (s : string) : forall skip pv m,
  m ∈ scan r skip pv s -> exists pv' s', match_at r pv' s' = Some m.
Proof.
  induction s as [|c s IH]; intros skip pv m Hin.
  - destruct skip; simpl in Hin; [|by apply elem_of_nil in Hin].
    destruct (match_at r pv "") as [m'|] eqn:Hm; [|by apply elem_of_nil in Hin].
    apply list_elem_of_singleton in Hin as ->. by exists pv, "".
  - destruct skip as [|skip]; simpl in Hin; [|by apply (IH _ _ _ Hin)].
    destruct (match_at r pv (String c s)) as [m'|] eqn:Hm;
      [|by apply (IH _ _ _ Hin)].
    apply elem_of_cons in Hin as [->|Hin]; [by exists pv, (String c s)|].
    by apply (IH _ _ _ Hin).
Qed.

End Matcher.

(** ** The line-oriented (type-checker) parser *)

Section Mypy.
Import Re MypyAnalyzer MatchedNumbers.

Lemma int_digits_ok (w : string) : forall acc,
  all_chars is_digit w = true -> exists n, int_digits acc w = Some n.
Proof.
  induction w as [|c w IH]; intros acc Hw; simpl in *; [by eexists|].
  apply andb_prop in Hw as [Hc Hw]. rewrite Hc. by apply IH.
Qed.

Lemma pattern_groups (pv : option ascii) (s : string) (m : mstate) :
  match_at pattern pv s = Some m ->
  exists file_ c1 w1 c2 w2 level_ c3 w3,
    groupdict m "file" = Some file_
    /\ groupdict m "line" = Some (String c1 w1)
    /\ all_chars is_digit (String c1 w1) = true
    /\ groupdict m "col" = Some (String c2 w2)
    /\ all_chars is_digit (String c2 w2) = true
    /\ groupdict m "level" = Some level_
    /\ groupdict m "message" = Some (String c3 w3).
Proof.
  unfold match_at. intros Hrun.
  apply exec_sound in Hrun as (st' & Hreach & [= ->]).
  simpl in Hreach.
  repeat match goal with
  | H : exists _, _ |- _ => destruct H
  | H : _ /\ _ |- _ => destruct H
  | H : _ \/ _ |- _ => destruct H
  end.
  all: repeat match goal with
  | H : rest ?a = String ?c (?w +:+ rest ?b), G : groups ?b = groups ?a |- _ =>
      let Hrun := fresh "Hrun" in
      pose proof (consumed_run c w a b H) as Hrun;
      rewrite Hrun, G in *; clear H G Hrun
  end.
  all: subst; simpl in *.
  all: try match goal with H : groups _ = _ |- _ => rewrite H end.
  all: unfold groupdict; simpl.
  all: do 8 eexists; repeat split; try reflexivity.
  all: apply andb_true_intro; split; assumption.
Qed.

Lemma for_each_Forall2 {A B} (f : A -> result B) (l : list A) : forall ys,
  for_each f l = Ok ys -> Forall2 (fun x y => f x = Ok y) l ys.
Proof.
  induction l as [|x l IH]; intros ys Hrun; simpl in Hrun.
  - injection Hrun as <-. constructor.
  - unfold mbind, result_bind in Hrun.
    destruct (f x) as [y|] eqn:Hy; [|discriminate].
    destruct (for_each f l) as [ys'|] eqn:Hys; [|discriminate].
    injection Hrun as <-. constructor; [exact Hy|by apply IH].
Qed.

Lemma for_each_Forall {A B} (f : A -> result B) (P : B -> Prop) (l : list A)
    (ys : list B) :
  (forall x y, x ∈ l -> f x = Ok y -> P y) ->
  for_each f l = Ok ys -> Forall P ys.
Proof.
  intros HP Hrun. apply for_each_Forall2 in Hrun.
  induction Hrun as [|x y l ys Hy _ IH]; constructor.
  - apply (HP x); [apply list_elem_of_here|exact Hy].
  - apply IH. intros x' y' Hx'. apply HP. by apply list_elem_of_further.
Qed.

(** A loop whose body returns on the elements that pass a test and
    raises [e] on the others: it returns when all pass, and raises [e]
    otherwise. *)
Lemma for_each_cases {A B} (f : A -> result B) (ok : A -> bool) (e : exn)
    (l : list A) :
  (forall x, x ∈ l -> if ok x then exists y, f x = Ok y else f x = Raise e) ->
  if forallb ok l then exists ys, for_each f l = Ok ys
  else for_each f l = Raise e.
Proof.
  induction l as [|x l IH]; intros Hall; simpl; [by eexists|].
  pose proof (Hall x (list_elem_of_here _ _)) as Hx.
  assert (Hl : if forallb ok l then exists ys, for_each f l = Ok ys
               else for_each f l = Raise e).
  { apply IH. intros x' Hx'. apply Hall. by apply list_elem_of_further. }
  unfold mbind, result_bind.
  destruct (ok x); simpl.
  - destruct Hx as (y & ->).
    destruct (forallb ok l); [destruct Hl as (ys & ->); by eexists|by rewrite Hl].
  - by rewrite Hx.
Qed.

(** A match converts into a finding when its line and its column have
    at most 4300 digits, and raises [ValueError] when one has more. *)
Lemma convert_match_cases (pv : option ascii) (s : string) (m : mstate) :
  match_at pattern pv s = Some m ->
  if numbers_within_limit m
  then exists f, _convert_mypy_match (groupdict m) = Ok f
  else _convert_mypy_match (groupdict m) = Raise ValueError.
Proof.
  intros Hm.
  destruct (pattern_groups pv s m Hm)
    as (file_ & c1 & w1 & c2 & w2 & level_ & c3 & w3
        & Hfile & Hline & Hd1 & Hcol & Hd2 & Hlevel & Hmsg).
  unfold numbers_within_limit, _convert_mypy_match.
  rewrite Hfile, Hline, Hcol, Hlevel, Hmsg.
  destruct (int_digits_ok _ 0 Hd1) as (n1 & Hn1).
  destruct (int_digits_ok _ 0 Hd2) as (n2 & Hn2).
  unfold int_. rewrite Hn1, Hn2.
  change (default "" (Some (String c1 w1))) with (String c1 w1).
  change (default "" (Some (String c2 w2))) with (String c2 w2).
  destruct (within_digit_limit (String c1 w1)),
    (within_digit_limit (String c2 w2)); simpl; try reflexivity.
  eexists. reflexivity.
Qed.

(** The finding of a match is of type type_error and carries the
    matched message, which has at least one character. *)
Lemma convert_match_message (pv : option ascii) (s : string) (m : mstate)
    (f : Finding) :
  match_at pattern pv s = Some m ->
  _convert_mypy_match (groupdict m) = Ok f ->
  type f = TYPE_ERROR /\ message f <> "".
Proof.
  intros Hm.
  destruct (pattern_groups pv s m Hm)
    as (file_ & c1 & w1 & c2 & w2 & level_ & c3 & w3
        & Hfile & Hline & Hd1 & Hcol & Hd2 & Hlevel & Hmsg).
  unfold _convert_mypy_match. rewrite Hfile, Hline, Hcol, Hlevel, Hmsg.
  unfold mbind, result_bind.
  destruct (int_ (Some (String c1 w1))); [|discriminate].
  destruct (int_ (Some (String c2 w2))); [|discriminate].
  cbn [required_str]. intros [= <-]. split; [reflexivity|discriminate].
Qed.

Lemma parse_mypy_output_cases (output : string) :
  if forallb numbers_within_limit (finditer pattern output)
  then exists findings, _parse_mypy_output output = Ok findings
  else _parse_mypy_output output = Raise ValueError.
Proof.
  unfold _parse_mypy_output.
  apply (for_each_cases (fun m => _convert_mypy_match (groupdict m))).
  intros m Hin. apply scan_matches in Hin as (pv & s & Hm).
  by apply (convert_match_cases pv s).
Qed.

Lemma parse_mypy_output_raises (output : string) (e : exn) :
  _parse_mypy_output output = Raise e ->
  e = ValueError /\ forallb numbers_within_limit (finditer pattern output) = false.
Proof.
  intros Hraise. pose proof (parse_mypy_output_cases output) as Hcases.
  destruct (forallb _ _).
  - destruct Hcases as (findings & Hok). congruence.
  - split; [congruence|reflexivity].
Qed.

Lemma parse_mypy_output_messages (output : string) (findings : list Finding) :
  _parse_mypy_output output = Ok findings ->
  Forall (fun f => type f = TYPE_ERROR /\ message f <> "") findings.
Proof.
  unfold _parse_mypy_output. apply for_each_Forall.
  intros m f Hin. apply scan_matches in Hin as (pv & s & Hm).
  by apply (convert_match_message pv s).
Qed.

End Mypy.

(** ** Messages of findings *)

Section Messages.
Import AstAnalyzer MypyAnalyzer Json RuffAnalyzer.

Lemma nonempty_append (c : ascii) (s t : string) : String c s +:+ t <> "".
Proof. discriminate. Qed.

Lemma analyze_function_messages threshold file_path h po a r body rest :
  Forall (fun f => message f <> "")
    (_analyze_function threshold file_path h po a r body rest).
Proof.
  unfold _analyze_function.
  repeat case_match; repeat (apply Forall_app; split);
    repeat constructor; apply nonempty_append.
Qed.

Lemma analyze_class_messages file_path h heads body rest :
  Forall (fun f => message f <> "") (_analyze_class file_path h heads body rest).
Proof.
  unfold _analyze_class. case_match; repeat constructor. apply nonempty_append.
Qed.

Lemma analyze_file_messages threshold file_path r :
  Forall (fun f => message f <> "") (analyze_file threshold file_path r).
Proof.
  destruct r as [tree|? ? ?|?]; simpl.
  - unfold _analyze_tree. induction (walk tree) as [|n l IH]; simpl; [constructor|].
    apply Forall_app. split; [|exact IH].
    destruct n; simpl; try constructor.
    + apply analyze_function_messages.
    + apply analyze_class_messages.
  - repeat constructor. apply nonempty_append.
  - repeat constructor. apply nonempty_append.
Qed.

Lemma ast_directory_messages threshold py_files :
  Forall (fun f => message f <> "")
    (AstAnalyzer.analyze_directory threshold py_files).
Proof.
  unfold AstAnalyzer.analyze_directory.
  induction py_files as [|x l IH]; simpl; [constructor|].
  apply Forall_app. split; [|exact IH].
  destruct (skipped x); [constructor|apply analyze_file_messages].
Qed.

Lemma mypy_directory_messages str_exn directory run :
  Forall (fun f => message f <> "")
    (MypyAnalyzer.analyze_directory str_exn directory run).
Proof.
  unfold MypyAnalyzer.analyze_directory.
  destruct run as [stdout| | |str_e]; simpl;
    try (repeat constructor; first [apply nonempty_append|discriminate]).
  destruct (decide (stdout = "")); [constructor|].
  destruct (_parse_mypy_output stdout) as [findings|e] eqn:Hparse; simpl.
  - eapply Forall_impl; [exact (parse_mypy_output_messages _ _ Hparse)|].
    by intros f [_ Hf].
  - repeat constructor. apply nonempty_append.
Qed.

Lemma convert_ruff_issue_message int_validator issue f :
  _convert_ruff_issue int_validator issue = Ok f ->
  exists items, issue = JDict items
    /\ ((lookup_key "message" items = None /\ message f = "No message provided")
        \/ lookup_key "message" items = Some (JStr (message f))).
Proof.
  unfold _convert_ruff_issue. intros Hconv.
  destruct issue as [| | | | | |items]; try discriminate.
  exists items. split; [reflexivity|].
  simpl in Hconv. unfold mbind, result_bind in Hconv.
  repeat (case_match; try discriminate); simplify_eq/=.
  all: destruct (lookup_key "message" items) as [[]|]; simplify_eq/=; auto.
Qed.

(** C8 as stated fails: an issue object whose message is the empty
    string is accepted, and its finding has an empty message. *)
Lemma empty_message_accepted :
  _convert_ruff_issue int_only (sample_issue (JStr ""))
  = Ok (mkFinding STYLE MEDIUM
          (mkLocation "src/app.py" (Some 3) (Some 89) (Some 3) None)
          "" (Some "E501") false).
Proof. reflexivity. Qed.

(** C8, amended: every finding of the structural analyzer and of the
    type-checker adapter has a non-empty message, and so has every
    finding of the linter adapter that is not built from an issue
    object (tool failures, the parse failure); the structured parser
    gives the finding of an accepted issue the issue's message string
    as it is, or "No message provided" when the issue has no message,
    so that finding's message is non-empty exactly when the issue does
    not carry the empty string as its message. *)
Theorem finding_messages :
  (forall threshold file_path r,
     Forall (fun f => message f <> "") (analyze_file threshold file_path r))
  /\ (forall threshold py_files,
        Forall (fun f => message f <> "")
          (AstAnalyzer.analyze_directory threshold py_files))
  /\ (forall output,
        match _parse_mypy_output output with
        | Ok findings => Forall (fun f => message f <> "") findings
        | Raise e => e = ValueError
        end)
  /\ (forall str_exn directory run,
        Forall (fun f => message f <> "")
          (MypyAnalyzer.analyze_directory str_exn directory run))
  /\ (forall int_validator str_exn directory run loaded,
        Forall (fun f => message f <> ""
                  \/ exists issue, _convert_ruff_issue int_validator issue = Ok f)
          (RuffAnalyzer.analyze_directory int_validator str_exn directory run loaded))
  /\ (forall int_validator str_e,
        exists f, _parse_ruff_output int_validator (JSONDecodeError str_e) = Ok [f]
          /\ message f <> "")
  /\ (forall int_validator issues findings,
        _parse_ruff_output int_validator (Loaded issues) = Ok findings ->
        exists items, iterate issues = Ok items
          /\ Forall2 (fun issue f => _convert_ruff_issue int_validator issue = Ok f)
               items findings)
  /\ (forall int_validator issue f,
        _convert_ruff_issue int_validator issue = Ok f ->
        exists items, issue = JDict items
          /\ ((lookup_key "message" items = None
               /\ message f = "No message provided")
              \/ lookup_key "message" items = Some (JStr (message f)))
          /\ (message f <> "" <-> lookup_key "message" items <> Some (JStr ""))).
Proof.
  split; [|split; [|split; [|split; [|split; [|split; [|split]]]]]].
  - apply analyze_file_messages.
  - apply ast_directory_messages.
  - intros output.
    destruct (_parse_mypy_output output) as [findings|e] eqn:Hparse.
    + eapply Forall_impl; [exact (parse_mypy_output_messages _ _ Hparse)|].
      by intros f [_ Hf].
    + by destruct (parse_mypy_output_raises _ _ Hparse).
  - apply mypy_directory_messages.
  - intros int_validator str_exn directory run loaded.
    unfold RuffAnalyzer.analyze_directory.
    destruct run as [stdout| | |str_e]; simpl;
      try (constructor; [left; first [apply nonempty_append|discriminate]
                        |constructor]).
    destruct (decide (stdout = "")); [constructor|].
    destruct (_parse_ruff_output int_validator loaded) as [parsed|e] eqn:Hparse;
      simpl; [|constructor; [left; apply nonempty_append|constructor]].
    destruct loaded as [issues|str_e|e]; simpl in Hparse.
    + unfold mbind, result_bind in Hparse.
      destruct (iterate issues) as [items|]; [|discriminate].
      apply for_each_Forall2 in Hparse.
      induction Hparse as [|issue f items fs Hf _ IH]; constructor; [|exact IH].
      right. by exists issue.
    + injection Hparse as <-.
      constructor; [left; apply nonempty_append|constructor].
    + discriminate.
  - intros. eexists. split; [reflexivity|]. apply nonempty_append.
  - intros int_validator issues findings Hparse. simpl in Hparse.
    unfold mbind, result_bind in Hparse.
    destruct (iterate issues) as [items|] eqn:Hit; [|discriminate].
    exists items. split; [reflexivity|]. by apply for_each_Forall2.
  - intros int_validator issue f Hconv.
    destruct (convert_ruff_issue_message _ _ _ Hconv) as (items & -> & Hmsg).
    exists items. split; [reflexivity|]. split; [exact Hmsg|].
    destruct Hmsg as [[Hnone Hdefault]|Hsome].
    + rewrite Hnone, Hdefault. split; intros _; discriminate.
    + rewrite Hsome. split; intros Hne; congruence.
Qed.

(** An issue with a message of its own. *)
Lemma finding_messages_witness :
  exists f,
    _convert_ruff_issue int_only (sample_issue (JStr "Line too long (120 > 88)"))
    = Ok f
    /\ message f <> "".
Proof.
  eexists. split; [reflexivity|].
  destruct (proj2 (proj2 (proj2 (proj2 (proj2 (proj2 (proj2 finding_messages))))))
              int_only
              (sample_issue (JStr "Line too long (120 > 88)")) _ eq_refl)
    as (items & Hitems & _ & Hiff).
  apply Hiff. injection Hitems as <-. discriminate.
Defined.

End Messages.

(** ** Lines and matches *)

Section Lines.
Import Re MypyAnalyzer.

(** C5: on the two-line output whose first line is [abc] and whose
    second is [:1:2: error: x], neither line matches the pattern, yet
    the parser returns one finding, located in the file [abc] followed
    by a line feed: the file group runs across the line end.  In the
    same way a line without a colon before a diagnostic ends up in
    the diagnostic's file name, and a line [[syntax]] after the
    diagnostic [f.py:1:2: error: msg] is read as that diagnostic's
    code, which alone has none. *)
Lemma parse_mypy_output_joins_lines :
  lines ("abc" +:+ LF +:+ ":1:2: error: x") = ["abc"; ":1:2: error: x"]
  /\ line_matches "abc" = false
  /\ line_matches ":1:2: error: x" = false
  /\ _parse_mypy_output ("abc" +:+ LF +:+ ":1:2: error: x")
     = Ok [mkFinding TYPE_ERROR MEDIUM
             (mkLocation ("abc" +:+ LF) (Some 1) (Some 2) None None)
             "x" (Some "mypy") false]
  /\ lines ("Daemon started" +:+ LF +:+ "a.py:3:4: note: hello")
     = ["Daemon started"; "a.py:3:4: note: hello"]
  /\ line_matches "Daemon started" = false
  /\ _parse_mypy_output "a.py:3:4: note: hello"
     = Ok [mkFinding TYPE_ERROR INFO
             (mkLocation "a.py" (Some 3) (Some 4) None None)
             "hello" (Some "mypy") false]
  /\ _parse_mypy_output ("Daemon started" +:+ LF +:+ "a.py:3:4: note: hello")
     = Ok [mkFinding TYPE_ERROR INFO
             (mkLocation ("Daemon started" +:+ LF +:+ "a.py") (Some 3) (Some 4)
                None None)
             "hello" (Some "mypy") false]
  /\ lines ("f.py:1:2: error: msg" +:+ LF +:+ "[syntax]")
     = ["f.py:1:2: error: msg"; "[syntax]"]
  /\ line_matches "[syntax]" = false
  /\ _parse_mypy_output "f.py:1:2: error: msg"
     = Ok [mkFinding TYPE_ERROR MEDIUM
             (mkLocation "f.py" (Some 1) (Some 2) None None)
             "msg" (Some "mypy") false]
  /\ _parse_mypy_output ("f.py:1:2: error: msg" +:+ LF +:+ "[syntax]")
     = Ok [mkFinding TYPE_ERROR CRITICAL
             (mkLocation "f.py" (Some 1) (Some 2) None None)
             "msg" (Some "mypy:syntax") false].
Proof. repeat split; vm_compute; reflexivity. Qed.

End Lines.

(** ** Further properties of the adapters and the analyzer *)

Section Further.
Import AstAnalyzer MypyAnalyzer MatchedNumbers Json RuffAnalyzer.

Lemma convert_mypy_match_fields (d : string -> option string) (f : Finding) :
  _convert_mypy_match d = Ok f ->
  type f = TYPE_ERROR
  /\ severity f
     = (if decide (d "level" = Some "error")
        then match d "code" with
             | Some code => default MEDIUM (MypyAnalyzer.SEVERITY_MAP !! code)
             | None => MEDIUM
             end
        else if decide (d "level" = Some "warning") then LOW
        else if decide (d "level" = Some "note") then INFO
        else MEDIUM)
  /\ rule_id f
     = Some (match d "code" with
             | Some (String c s) => "mypy:" +:+ String c s
             | _ => "mypy"
             end)
  /\ d "message" = Some (message f)
  /\ d "file" = Some (file (location f))
  /\ fix_available f = false.
Proof.
  unfold _convert_mypy_match, mbind, result_bind, required_str.
  intros Hconv.
  destruct (int_ (d "line")); [|discriminate].
  destruct (int_ (d "col")); [|discriminate].
  destruct (d "file"); [|discriminate].
  destruct (d "message"); [|discriminate].
  injection Hconv as <-. simpl. done.
Qed.

(** X1: The type-checker parser returns when the line and the column of
    every match have at most 4300 digits, and raises [ValueError] when
    one has more, as [int] does.  When it returns, it gives one finding
    per match of the pattern, in order: of type type_error, with the
    severity that the level selects (for "error" the table entry of the
    code, medium without one; "warning" low; "note" info; medium for
    any other level), with rule "mypy:<code>" when the match has a code
    and "mypy" when it has none, and with the matched file and message. *)
Theorem mypy_one_finding_per_match (output : string) :
  if forallb numbers_within_limit (Re.finditer pattern output)
  then
    exists findings,
      _parse_mypy_output output = Ok findings
      /\ Forall2 (fun m f =>
           type f = TYPE_ERROR
           /\ severity f
              = (if decide (Re.groupdict m "level" = Some "error")
                 then match Re.groupdict m "code" with
                      | Some code => default MEDIUM (MypyAnalyzer.SEVERITY_MAP !! code)
                      | None => MEDIUM
                      end
                 else if decide (Re.groupdict m "level" = Some "warning") then LOW
                 else if decide (Re.groupdict m "level" = Some "note") then INFO
                 else MEDIUM)
           /\ rule_id f
              = Some (match Re.groupdict m "code" with
                      | Some (String c s) => "mypy:" +:+ String c s
                      | _ => "mypy"
                      end)
           /\ Re.groupdict m "message" = Some (message f)
           /\ Re.groupdict m "file" = Some (file (location f))
           /\ fix_available f = false)
         (Re.finditer pattern output) findings
  else _parse_mypy_output output = Raise ValueError.
Proof.
  pose proof (parse_mypy_output_cases output) as Hcases.
  destruct (forallb _ _); [|exact Hcases].
  destruct Hcases as (findings & Hok).
  exists findings. split; [exact Hok|].
  unfold _parse_mypy_output in Hok. apply for_each_Forall2 in Hok.
  eapply Forall2_impl; [exact Hok|].
  intros m f Hconv. by apply convert_mypy_match_fields.
Qed.

(** X4: An issue that the structured parser accepts gives a finding whose
    severity and type are derived from the rule code, whose rule is
    the code, and which is marked fixable exactly when the issue's fix
    is not null. *)
Theorem ruff_issue_fields (int_validator : json -> option Z)
    (items : list (string * json)) (f : Finding) :
  _convert_ruff_issue int_validator (JDict items) = Ok f ->
  exists rule_code,
    default (JStr "") (lookup_key "code" items) = JStr rule_code
    /\ severity f = _get_severity_for_rule rule_code
    /\ type f = _get_finding_type rule_code
    /\ rule_id f = Some rule_code
    /\ (fix_available f = true
        <-> default JNull (lookup_key "fix" items) <> JNull).
Proof.
  unfold _convert_ruff_issue. simpl. unfold mbind, result_bind. intros Hconv.
  repeat (case_match; try discriminate); simplify_eq/=.
  all: match goal with
       | H : default (JStr "") _ = JStr ?code |- _ => exists code
       end; repeat split; done.
Qed.

Lemma ruff_issue_fields_witness :
  exists rule_code,
    default (JStr "") (lookup_key "code"
      [("code", JStr "F401"); ("filename", JStr "src/app.py");
       ("fix", JDict [("applicability", JStr "safe")]);
       ("message", JStr "`os` imported but unused")]) = JStr rule_code
    /\ HIGH = _get_severity_for_rule rule_code
    /\ BUG = _get_finding_type rule_code
    /\ Some "F401" = Some rule_code
    /\ (true = true
        <-> default JNull (lookup_key "fix"
              [("code", JStr "F401"); ("filename", JStr "src/app.py");
               ("fix", JDict [("applicability", JStr "safe")]);
               ("message", JStr "`os` imported but unused")]) <> JNull).
Proof.
  apply (ruff_issue_fields int_only
    [("code", JStr "F401"); ("filename", JStr "src/app.py");
     ("fix", JDict [("applicability", JStr "safe")]);
     ("message", JStr "`os` imported but unused")]
    (mkFinding BUG HIGH (mkLocation "src/app.py" None None None None)
       "`os` imported but unused" (Some "F401") true)).
  reflexivity.
Defined.

End Further.

(** ** Further properties: the structural analyzer *)

Section FurtherAst.
Import AstAnalyzer ParsedTrees.

(** X5: Every definition of the tree is analyzed, wherever it sits: a
    finding comes out of [_analyze_tree] exactly when the loop body
    yields it for some node of the tree, nested functions, methods and
    definitions inside async functions included. *)
Theorem analyze_tree_reaches_every_node
    (threshold : Z) (file_path : string) (tree : node) (f : Finding) :
  f ∈ _analyze_tree threshold tree file_path
  <-> exists n, n ∈ subnodes tree /\ f ∈ analyze_node threshold file_path n.
Proof.
  unfold _analyze_tree. split.
  - intros Hf. apply list_elem_of_In, in_flat_map in Hf as (n & Hn & Hf).
    exists n. split; [|by apply list_elem_of_In].
    apply list_elem_of_In in Hn. by rewrite <- (walk_subnodes tree).
  - intros (n & Hn & Hf). apply list_elem_of_In, in_flat_map.
    exists n. split; apply list_elem_of_In; [|exact Hf].
    by rewrite (walk_subnodes tree).
Qed.

(** X6: What a statement adds to the complexity of the function whose body
    holds it is its own complexity less the base 1; for a nested
    function definition this means that its branches count again for
    every function around it. *)
Theorem nested_statement_adds_its_complexity
    (h : def_header) (po a r before after rest : list node) (stmt : node) :
  function_complexity (FunctionDef h po a r (before ++ stmt :: after) rest)
  = function_complexity (FunctionDef h po a r (before ++ after) rest)
    + (function_complexity stmt - 1).
Proof.
  unfold function_complexity. rewrite !visit_total.
  rewrite !(subtree_total_children (FunctionDef _ _ _ _ _ _)). simpl.
  rewrite !forest_total_cons, !forest_total_app, forest_total_cons. lia.
Qed.

Lemma sumZ_nonneg (l : list Z) : Forall (fun x => 0 <= x) l -> 0 <= sumZ l.
Proof. induction 1 as [|x l Hx _ IH]; simpl; [reflexivity|]. unfold sumZ in *. simpl. lia. Qed.

Lemma complexity_at_least_base (tree : node) :
  boolops_have_operands tree = true -> 1 <= function_complexity tree.
Proof.
  unfold boolops_have_operands, function_complexity. intros Hwf.
  rewrite visit_total. unfold subtree_total.
  assert (0 <= sumZ (map own_increment (subnodes tree))); [|lia].
  apply sumZ_nonneg. apply Forall_map, Forall_forall. intros n Hn.
  rewrite forallb_forall in Hwf. apply list_elem_of_In, Hwf in Hn.
  destruct n as [[]| op [|v vs] | | | |]; simpl in *; try discriminate; lia.
Qed.

(** X7: The complexity of a function of a parsed tree is at least the base
    1; so under a threshold of 0 or less every function gets the
    complexity finding, and it is of severity high. *)
Theorem nonpositive_threshold_flags_every_function
    (threshold : Z) (file_path : string)
    (h : def_header) (po a r body rest : list node) :
  boolops_have_operands (FunctionDef h po a r body rest) = true ->
  threshold <= 0 ->
  1 <= function_complexity (FunctionDef h po a r body rest)
  /\ severity (complexity_finding threshold file_path h
                 (function_complexity (FunctionDef h po a r body rest))) = HIGH
  /\ complexity_finding threshold file_path h
       (function_complexity (FunctionDef h po a r body rest))
     ∈ _analyze_function threshold file_path h po a r body rest.
Proof.
  intros Hwf Hthr. pose proof (complexity_at_least_base _ Hwf) as Hbase.
  split; [exact Hbase|].
  set (c := function_complexity _) in *. split.
  - simpl. destruct (Z.ltb_spec (threshold * 2) c); [reflexivity|lia].
  - destruct (analyze_function_complexity_part threshold file_path h po a r body rest)
      as (others & Heq & _).
    fold c in Heq. rewrite Heq.
    destruct (Z.ltb_spec threshold c); [|lia].
    apply elem_of_app. left. apply list_elem_of_here.
Qed.

(** [def f(): pass] under the threshold 0. *)
Lemma nonpositive_threshold_flags_every_function_witness :
  1 <= function_complexity
         (FunctionDef (mkHeader "f" 1 0 (Some 1)) [] [] [] [Node OtherNode []] [])
  /\ severity (complexity_finding 0 "m.py" (mkHeader "f" 1 0 (Some 1))
                 (function_complexity
                    (FunctionDef (mkHeader "f" 1 0 (Some 1)) [] [] []
                       [Node OtherNode []] []))) = HIGH
  /\ complexity_finding 0 "m.py" (mkHeader "f" 1 0 (Some 1))
       (function_complexity
          (FunctionDef (mkHeader "f" 1 0 (Some 1)) [] [] []
             [Node OtherNode []] []))
     ∈ _analyze_function 0 "m.py" (mkHeader "f" 1 0 (Some 1)) [] [] []
         [Node OtherNode []] [].
Proof.
  apply (nonpositive_threshold_flags_every_function 0 "m.py"
           (mkHeader "f" 1 0 (Some 1)) [] [] [] [Node OtherNode []] []).
  - reflexivity.
  - lia.
Defined.

Lemma skipped_hidden_or_excluded (f : py_file) :
  skipped f = existsb hidden_or_excluded (parts f).
Proof.
  unfold skipped. induction (parts f) as [|part l IH]; [reflexivity|].
  simpl. rewrite <- IH. unfold hidden_or_excluded.
  destruct (String.prefix "." part) eqn:Hdot; simpl.
  - reflexivity.
  - destruct (decide (part ∈ excluded_parts)) as [Hin|Hout].
    + rewrite (bool_decide_eq_true_2 _ Hin).
      unfold excluded_parts in Hin.
      rewrite !elem_of_cons in Hin.
      destruct Hin as [->|[->|[->|[->|[->|Hin]]]]];
        try discriminate Hdot; try by apply elem_of_nil in Hin.
      all: rewrite bool_decide_eq_true_2; [by rewrite !orb_true_r|].
      all: rewrite !elem_of_cons; auto 10.
    + rewrite (bool_decide_eq_false_2 _ Hout).
      rewrite bool_decide_eq_false_2; [by destruct (existsb _ l)|].
      intros Hin. apply Hout. unfold excluded_parts.
      rewrite !elem_of_cons in *. tauto.
Qed.

(** X8: The directory scan passes over a file exactly when a part of its
    path begins with a dot or is one of __pycache__, venv, env and
    node_modules (the entry .venv of the exclusion set never decides).
    The parts include those of the directory itself: when the
    directory's own path has such a part, every file is passed over and
    the scan finds nothing. *)
Theorem directory_scan_policy (threshold : Z) :
  (forall f, skipped f = existsb hidden_or_excluded (parts f))
  /\ (forall root py_files,
        Forall (fun f => exists below, parts f = root ++ below) py_files ->
        existsb hidden_or_excluded root = true ->
        analyze_directory threshold py_files = []).
Proof.
  split; [apply skipped_hidden_or_excluded|].
  intros root py_files Hunder Hroot. unfold analyze_directory.
  induction Hunder as [|f l (below & Hparts) _ IH]; [reflexivity|].
  simpl. rewrite IH, skipped_hidden_or_excluded, Hparts, existsb_app, Hroot.
  reflexivity.
Qed.

(** A file with a syntax error in a repository given as [..]. *)
Lemma directory_scan_policy_witness :
  analyze_directory default_complexity_threshold
    [mkPyFile "../pkg/broken.py" [".."; "pkg"; "broken.py"]
       (SyntaxError (Some 2) (Some 5) "invalid syntax")] = [].
Proof.
  apply (proj2 (directory_scan_policy default_complexity_threshold) [".."]).
  - repeat constructor. by exists ["pkg"; "broken.py"].
  - reflexivity.
Defined.

End FurtherAst.

(** ** Further properties: the command *)

Section FurtherCommand.
Import Json Cli CliCommand.

Lemma counted_not_skipped (f : AstAnalyzer.py_file) :
  counted f = negb (AstAnalyzer.skipped f).
Proof.
  unfold counted, AstAnalyzer.skipped. f_equal.
  induction (AstAnalyzer.parts f) as [|part l IH]; [reflexivity|].
  simpl. rewrite IH.
  destruct (String.prefix "." part), (bool_decide _),
    (existsb (String.prefix ".") l), (existsb _ l); reflexivity.
Qed.

Lemma critical_iff_urgent (fs : list Finding) (gm : option GitMetrics) :
  (0 < count_if (is_severity CRITICAL) fs)%nat
  <-> exists r, r ∈ _generate_recommendations fs gm /\ priority r = P_URGENT.
Proof.
  split.
  - intros Hpos. rewrite recommendations_by_rule.
    unfold critical_rule. destruct (Nat.ltb_spec 0 (count_if (is_severity CRITICAL) fs));
      [|lia].
    eexists. split; [apply list_elem_of_here|reflexivity].
  - intros (r & Hin & Hr).
    destruct (Nat.eq_dec (count_if (is_severity CRITICAL) fs) 0%nat) as [Hz|]; [|lia].
    pose proof (no_urgent_without_critical fs gm Hz) as Hall.
    rewrite Forall_forall in Hall. by destruct (Hall r Hin).
Qed.

Lemma count_if_positive (p : Finding -> bool) (fs : list Finding) :
  (0 < count_if p fs)%nat <-> exists f, f ∈ fs /\ p f = true.
Proof.
  unfold count_if. split.
  - intros Hpos. destruct (List.filter p fs) as [|f l] eqn:Hfilter; [simpl in Hpos; lia|].
    exists f. assert (Hin : In f (List.filter p fs)) by (rewrite Hfilter; by left).
    apply filter_In in Hin as [Hin Hp]. split; [by apply list_elem_of_In|exact Hp].
  - intros (f & Hin & Hp).
    assert (Hf : In f (List.filter p fs)).
    { apply filter_In. split; [by apply list_elem_of_In|exact Hp]. }
    destruct (List.filter p fs); [destruct Hf|simpl; lia].
Qed.

(** X9: The exit status of the process is 0 or 1.  It is 1 exactly when
    the result holds a finding of severity critical or an output file
    was asked for and writing it raised; without an output file, and
    when the file is written, it is 1 exactly when there is a critical
    finding.  A critical finding is there exactly when the result
    holds an urgent recommendation. *)
Theorem exit_status_follows_critical_findings
    (int_validator : json -> option Z) (str_exn : exn -> string)
    (env : environment) (directory : string) (output : option string)
    (threshold : Z) (skip_git skip_ruff skip_mypy skip_ast : bool) :
  let run := analyze int_validator str_exn env directory output threshold
               skip_git skip_ruff skip_mypy skip_ast in
  let critical := exists f, f ∈ findings (fst run) /\ severity f = CRITICAL in
  (snd run = 1 \/ snd run = 0)
  /\ (snd run = 1
      <-> critical \/ (output <> None /\ env_write_text env = WriteRaised))
  /\ (critical
      <-> exists r, r ∈ recommendations (fst run) /\ priority r = P_URGENT).
Proof.
  cbv zeta.
  assert (Hfst : forall out,
            fst (analyze int_validator str_exn env directory out threshold
                   skip_git skip_ruff skip_mypy skip_ast)
            = fst (analyze int_validator str_exn env directory None threshold
                     skip_git skip_ruff skip_mypy skip_ast)).
  { intros out. unfold analyze. cbv zeta.
    destruct out, (env_write_text env); reflexivity. }
  rewrite (Hfst output).
  assert (Hsnd : snd (analyze int_validator str_exn env directory output threshold
                        skip_git skip_ruff skip_mypy skip_ast)
                 = match output, env_write_text env with
                   | Some _, WriteRaised => 1
                   | _, _ =>
                       snd (analyze int_validator str_exn env directory None
                              threshold skip_git skip_ruff skip_mypy skip_ast)
                   end).
  { unfold analyze. cbv zeta.
    destruct output, (env_write_text env); reflexivity. }
  rewrite Hsnd. clear Hfst Hsnd.
  unfold analyze. cbv zeta. cbn [fst snd findings recommendations].
  match goal with
  | |- context [_generate_recommendations ?l ?g] => set (fs := l); set (gm := g)
  end.
  pose proof (critical_iff_urgent fs gm) as Hurgent.
  pose proof (count_if_positive (is_severity CRITICAL) fs) as Hcrit.
  assert (Hfind : (0 < count_if (is_severity CRITICAL) fs)%nat
                  <-> exists f, f ∈ fs /\ severity f = CRITICAL).
  { rewrite Hcrit. split; intros (f & Hin & Hf); exists f; (split; [exact Hin|]).
    - by apply bool_decide_eq_true in Hf.
    - by apply bool_decide_eq_true. }
  split; [|split].
  - destruct output, (env_write_text env); try (by left);
      destruct (0 <? count_if (is_severity CRITICAL) fs)%nat; auto.
  - destruct (Nat.ltb_spec 0 (count_if (is_severity CRITICAL) fs)) as [Hpos|Hzero].
    + split; [intros _; left; by apply Hfind|].
      intros _. by destruct output, (env_write_text env).
    + assert (Hnone : ~ exists f, f ∈ fs /\ severity f = CRITICAL).
      { intros Hex. apply Hfind in Hex. lia. }
      destruct output as [path|], (env_write_text env); split;
        try discriminate; try (intros [Hex|[Hout Hw]]; done); try done.
      intros _. right. by split.
  - by rewrite <- Hfind.
Qed.

(** X10: In the result of every run the summary counts the findings of the
    result, its [python_files] is the number of files that the
    structural scan does not pass over (the command's own filter agrees
    with the scan's two tests), and its [total_recommendations] is 0:
    the command never sets it, also when the result holds
    recommendations, as it does when the linter is not installed. *)
Theorem summary_of_the_result :
  (forall int_validator str_exn env directory output threshold
          skip_git skip_ruff skip_mypy skip_ast,
     let result := fst (analyze int_validator str_exn env directory output
                          threshold skip_git skip_ruff skip_mypy skip_ast) in
     total_findings (summary result) = length (findings result)
     /\ python_files (summary result)
        = length (List.filter (fun f => negb (AstAnalyzer.skipped f))
                    (env_py_files env))
     /\ total_recommendations (summary result) = 0%nat)
  /\ (forall int_validator str_exn directory output written threshold,
        let result := fst (analyze int_validator str_exn
                             (mkEnvironment [] FileNotFoundError (Loaded (JList []))
                                (Completed "") None directory "2026-02-21T10:00:00"
                                written)
                             directory output threshold false false false false) in
        length (recommendations result) = 1%nat
        /\ total_recommendations (summary result) = 0%nat).
Proof.
  split.
  - intros int_validator str_exn env directory output threshold
      skip_git skip_ruff skip_mypy skip_ast result.
    subst result. unfold analyze. cbv zeta.
    assert (Hfiles : length (List.filter counted (env_py_files env))
                     = length (List.filter (fun f => negb (AstAnalyzer.skipped f))
                                 (env_py_files env))).
    { f_equal. induction (env_py_files env) as [|f l IH]; [reflexivity|].
      simpl. rewrite counted_not_skipped, IH. reflexivity. }
    destruct output, (env_write_text env);
      cbn [fst summary findings _generate_summary total_findings python_files
           total_recommendations];
      (split; [reflexivity|]); (split; [exact Hfiles|reflexivity]).
  - intros int_validator str_exn directory output written threshold result.
    subst result. destruct output, written; split; reflexivity.
Qed.

End FurtherCommand.

(** ** Further properties: summary and recommendations *)

Section FurtherSummary.
Import Cli.

Lemma filter_length_Permutation {A} (p : A -> bool) (l l' : list A) :
  l ≡ₚ l' -> length (List.filter p l) = length (List.filter p l').
Proof.
  induction 1 as [|x l l' _ IH|x y l|l l' l'' _ IH1 _ IH2]; simpl.
  - reflexivity.
  - destruct (p x); simpl; by rewrite IH.
  - destruct (p x), (p y); reflexivity.
  - by rewrite IH1.
Qed.

Lemma tally_Permutation `{Countable K} {A} (key : A -> K) (l l' : list A) :
  l ≡ₚ l' ->
  foldl (fun counts x => increment (key x) counts) ∅ l
  = foldl (fun counts x => increment (key x) counts) ∅ l'.
Proof.
  intros Hperm. apply map_eq. intros k.
  rewrite !(lookup_tally_empty A key). simpl.
  by rewrite (filter_length_Permutation _ l l' Hperm).
Qed.

(** X11: The summary does not depend on the order in which the findings
    arrive: two lists with the same findings in another order have the
    same summary. *)
Theorem summary_ignores_order
    (findings findings' : list Finding) (python_files_count : nat) :
  findings ≡ₚ findings' ->
  _generate_summary findings python_files_count
  = _generate_summary findings' python_files_count.
Proof.
  intros Hperm. unfold _generate_summary.
  rewrite (tally_Permutation severity findings findings' Hperm).
  rewrite (tally_Permutation type findings findings' Hperm).
  rewrite (Permutation_length Hperm).
  assert (Hfiles : (list_to_set (map (fun f => file (location f)) findings) : gset string)
                   = list_to_set (map (fun f => file (location f)) findings')).
  { apply set_eq. intros x. rewrite !elem_of_list_to_set.
    by rewrite (Permutation_map (fun f => file (location f)) Hperm). }
  by rewrite Hfiles.
Qed.

(** A linter finding and a syntax error, in both orders. *)
Lemma summary_ignores_order_witness :
  _generate_summary [type_error_finding HIGH "call-arg"; syntax_error_finding] 2
  = _generate_summary [syntax_error_finding; type_error_finding HIGH "call-arg"] 2.
Proof.
  apply (summary_ignores_order
           [type_error_finding HIGH "call-arg"; syntax_error_finding]
           [syntax_error_finding; type_error_finding HIGH "call-arg"] 2).
  apply perm_swap.
Defined.

Lemma remove_dups_length_le {A} `{EqDecision A} (l : list A) :
  (length (remove_dups l) <= length l)%nat.
Proof.
  induction l as [|x l IH]; simpl; [lia|].
  destruct (decide_rel elem_of x l); simpl; lia.
Qed.

(** X12: When there are findings, [total_files] lies between 1 and the
    number of findings, and every count stored in the two mappings lies
    between 1 and the number of findings. *)
Theorem summary_bounds (findings : list Finding) (python_files_count : nat) :
  findings <> [] ->
  let s := _generate_summary findings python_files_count in
  (1 <= total_files s <= total_findings s)%nat
  /\ (forall sev n, findings_by_severity s !! sev = Some n ->
        (1 <= n <= total_findings s)%nat)
  /\ (forall ty n, findings_by_type s !! ty = Some n ->
        (1 <= n <= total_findings s)%nat).
Proof.
  intros Hne s. subst s. unfold _generate_summary.
  cbn [total_files total_findings findings_by_severity findings_by_type].
  assert (Hcount : forall p : Finding -> bool,
            (length (List.filter p findings) <= length findings)%nat).
  { intros p. clear Hne. induction findings as [|f l IH]; simpl; [lia|].
    destruct (p f); simpl; lia. }
  split; [|split].
  - destruct findings as [|f l]; [done|].
    destruct (decide _) as [Hempty|_].
    + exfalso. simpl in Hempty.
      assert (Hin : file (location f)
                      ∈ ({[file (location f)]} ∪ list_to_set
                           (map (fun f => file (location f)) l) : gset string))
        by set_solver.
      rewrite Hempty in Hin. set_solver.
    + rewrite size_list_to_set_distinct. split.
      * simpl. destruct (decide_rel elem_of _ _) as [Hin|_]; simpl; [|lia].
        apply elem_of_remove_dups in Hin.
        destruct (remove_dups _); [by apply elem_of_nil in Hin|simpl; lia].
      * etrans; [apply remove_dups_length_le|]. by rewrite length_map.
  - intros sev n Hn. rewrite (lookup_tally_empty Finding severity) in Hn.
    simpl in Hn. destruct (decide _) as [|Hpos]; [discriminate|]. injection Hn as <-.
    specialize (Hcount (fun x => bool_decide (severity x = sev))). lia.
  - intros ty n Hn. rewrite (lookup_tally_empty Finding type) in Hn.
    simpl in Hn. destruct (decide _) as [|Hpos]; [discriminate|]. injection Hn as <-.
    specialize (Hcount (fun x => bool_decide (type x = ty))). lia.
Qed.

Lemma summary_bounds_witness :
  (1 <= total_files (_generate_summary [syntax_error_finding] 0)
     <= total_findings (_generate_summary [syntax_error_finding] 0))%nat.
Proof.
  apply (summary_bounds [syntax_error_finding] 0). discriminate.
Defined.

End FurtherSummary.

Section FurtherRecommendations.
Import Cli Categories.

Lemma rule_categories (rule : list Recommendation) (c : string) :
  rule = [] \/ (exists r, rule = [r] /\ category r = c) ->
  map category rule `sublist_of` [c].
Proof.
  intros [->|(r & -> & <-)]; simpl.
  - apply sublist_nil_l.
  - reflexivity.
Qed.

(** X13: The categories of the recommendations form a subsequence of the
    seven categories in the order of the rules: there are at most
    seven recommendations, none of a category twice, always in that
    order.  The list is empty exactly when no rule's test holds. *)
Theorem recommendations_follow_rule_order
    (findings : list Finding) (git_metrics : option GitMetrics) :
  let recs := _generate_recommendations findings git_metrics in
  map category recs `sublist_of` all_categories
  /\ (length recs <= 7)%nat
  /\ NoDup (map category recs)
  /\ (recs = []
      <-> count_if (is_severity CRITICAL) findings = 0%nat
          /\ (count_if (is_severity HIGH) findings <= 5)%nat
          /\ (count_if (is_type COMPLEXITY) findings <= 5)%nat
          /\ (count_if (is_type TYPE_ERROR) findings <= 10)%nat
          /\ match git_metrics with
             | Some gm => hot_spots gm = [] /\ large_files gm = []
             | None => True
             end
          /\ count_if fix_available findings = 0%nat).
Proof.
  intros recs.
  assert (Hsub : map category recs `sublist_of` all_categories).
  { subst recs. rewrite recommendations_by_rule, !map_app.
    change all_categories with
      (["Critical Issues"] ++ ["High Severity Issues"] ++ ["Code Complexity"]
       ++ ["Type Safety"] ++ ["Code Hot Spots"] ++ ["Large Files"] ++ ["Quick Wins"]).
    repeat apply sublist_app; apply rule_categories.
    - unfold critical_rule. case_match; eauto.
    - unfold high_rule. case_match; eauto.
    - unfold complexity_rule. case_match; eauto.
    - unfold type_error_rule. case_match; eauto.
    - unfold hot_spot_rule. repeat case_match; eauto.
    - unfold large_file_rule. repeat case_match; eauto.
    - unfold fixable_rule. case_match; eauto. }
  split; [exact Hsub|]. split; [|split].
  - apply sublist_length in Hsub. by rewrite length_map in Hsub.
  - eapply sublist_NoDup; [|exact Hsub].
    apply (bool_decide_unpack _). by vm_compute.
  - subst recs. rewrite recommendations_by_rule.
    unfold critical_rule, high_rule, complexity_rule, type_error_rule,
      hot_spot_rule, large_file_rule, fixable_rule.
    destruct (Nat.ltb_spec 0 (count_if (is_severity CRITICAL) findings));
    destruct (Nat.ltb_spec 5 (count_if (is_severity HIGH) findings));
    destruct (Nat.ltb_spec 5 (count_if (is_type COMPLEXITY) findings));
    destruct (Nat.ltb_spec 10 (count_if (is_type TYPE_ERROR) findings));
    destruct (Nat.ltb_spec 0 (count_if fix_available findings));
    destruct git_metrics as [[? ? [|] [|] ?]|]; simpl;
    (split; [intros Hnil; try discriminate Hnil; repeat split; lia
            |intros (? & ? & ? & ? & Hgm & ?); try destruct Hgm;
             try lia; try discriminate; reflexivity]).
Qed.

End FurtherRecommendations.

(** ** Further properties: the linter adapter *)

Section FurtherRuff.
Import Json RuffAnalyzer.

Lemma ruff_severity_entries (key : string) (sev : Severity) :
  RuffAnalyzer.SEVERITY_MAP !! key = Some sev ->
  (key, sev) ∈ [("E", MEDIUM); ("F", HIGH); ("W", LOW); ("I", LOW); ("N", LOW);
                ("UP", MEDIUM); ("S", HIGH); ("B", MEDIUM); ("A", MEDIUM);
                ("C4", LOW); ("T20", LOW)].
Proof.
  unfold RuffAnalyzer.SEVERITY_MAP. intros Hlook.
  apply elem_of_list_to_map in Hlook; [exact Hlook|].
  apply (bool_decide_unpack _). by vm_compute.
Qed.

Lemma severity_for_rule_range (rule_code : string) :
  let sev := _get_severity_for_rule rule_code in
  let key := leading_alpha rule_code "" in
  sev <> CRITICAL /\ sev <> INFO
  /\ (sev = HIGH <-> key = "F" \/ key = "S")
  /\ (sev = LOW <-> key = "W" \/ key = "I" \/ key = "N").
Proof.
  intros sev key. subst sev. unfold _get_severity_for_rule. fold key.
  pose proof (leading_alpha_all_alpha rule_code) as Halpha. fold key in Halpha.
  destruct (RuffAnalyzer.SEVERITY_MAP !! key) as [sev|] eqn:Hlook; simpl.
  - apply ruff_severity_entries in Hlook.
    rewrite !elem_of_cons, elem_of_nil in Hlook.
    repeat destruct Hlook as [Hlook|Hlook]; try done;
      injection Hlook as Hkey ->; rewrite Hkey in *; try discriminate Halpha;
      (split; [discriminate|]); (split; [discriminate|]);
      split; split; try discriminate; try tauto;
      intros H; repeat destruct H as [H|H]; discriminate H.
  - split; [discriminate|]. split; [discriminate|].
    split; split; try discriminate; intros H; repeat destruct H as [H|H];
      rewrite H in Hlook; vm_compute in Hlook; discriminate Hlook.
Qed.

Lemma convert_ruff_issue_severity int_validator issue f :
  _convert_ruff_issue int_validator issue = Ok f ->
  exists rule_code, severity f = _get_severity_for_rule rule_code.
Proof.
  unfold _convert_ruff_issue. intros Hconv.
  destruct issue as [| | | | | |items]; try discriminate.
  simpl in Hconv. unfold mbind, result_bind in Hconv.
  repeat (case_match; try discriminate); simplify_eq/=; by eexists.
Qed.

(** X14: The severity of a rule code is never critical and never info; it
    is high exactly when the alphabetic prefix of the code is F or S,
    low exactly when it is W, I or N, and medium for every other code.
    So no finding that the parser builds from an issue is critical. *)
Theorem ruff_severity_range :
  (forall rule_code,
     let sev := _get_severity_for_rule rule_code in
     let key := leading_alpha rule_code "" in
     sev <> CRITICAL /\ sev <> INFO
     /\ (sev = HIGH <-> key = "F" \/ key = "S")
     /\ (sev = LOW <-> key = "W" \/ key = "I" \/ key = "N"))
  /\ (forall int_validator issues,
        match _parse_ruff_output int_validator (Loaded issues) with
        | Ok findings =>
            Forall (fun f => severity f <> CRITICAL /\ severity f <> INFO) findings
        | Raise _ => True
        end).
Proof.
  split; [apply severity_for_rule_range|].
  intros int_validator issues.
  destruct (_parse_ruff_output int_validator (Loaded issues)) as [findings|] eqn:Hparse;
    [|exact I].
  simpl in Hparse. unfold mbind, result_bind in Hparse.
  destruct (iterate issues) as [items|]; [|discriminate].
  apply for_each_Forall2 in Hparse.
  induction Hparse as [|issue f items fs Hf _ IH]; constructor; [|exact IH].
  destruct (convert_ruff_issue_severity _ _ _ Hf) as (rule_code & ->).
  destruct (severity_for_rule_range rule_code) as (Hc & Hi & _). by split.
Qed.

(** X15: The parser stops at the first issue it cannot convert: when an
    element of the JSON array is rejected, the parse raises and the
    findings of all the other issues are lost; the adapter then
    reports the whole run as one finding of rule RUFF002. *)
Theorem one_rejected_issue_loses_all
    (int_validator : json -> option Z) (str_exn : exn -> string)
    (directory stdout : string) (issues : list json) :
  stdout <> "" ->
  (exists issue e, issue ∈ issues /\ _convert_ruff_issue int_validator issue = Raise e) ->
  exists e,
    _parse_ruff_output int_validator (Loaded (JList issues)) = Raise e
    /\ RuffAnalyzer.analyze_directory int_validator str_exn directory
         (Completed stdout) (Loaded (JList issues))
       = [mkFinding BUG HIGH (mkLocation directory None None None None)
            ("Failed to run ruff: " +:+ str_exn e) (Some "RUFF002") false].
Proof.
  intros Hout (issue & e & Hin & Hbad).
  assert (Hraise : exists e', for_each (_convert_ruff_issue int_validator) issues
                              = Raise e').
  { induction issues as [|x l IH]; [by apply elem_of_nil in Hin|].
    simpl. unfold mbind, result_bind.
    destruct (_convert_ruff_issue int_validator x) as [f|e'] eqn:Hx; [|by exists e'].
    apply elem_of_cons in Hin as [->|Hin]; [congruence|].
    destruct (IH Hin) as (e' & ->). by exists e'. }
  destruct Hraise as (e' & Hraise). exists e'.
  unfold RuffAnalyzer.analyze_directory. simpl. unfold mbind, result_bind.
  rewrite Hraise. split; [reflexivity|].
  destruct (decide (stdout = "")); [done|reflexivity].
Qed.

(** A linter output of two issues, the second with a null code. *)
Lemma one_rejected_issue_loses_all_witness :
  exists e,
    _parse_ruff_output int_only
      (Loaded (JList [sample_issue (JStr "Line too long (120 > 88)");
                      JDict [("code", JNull); ("filename", JStr "src/app.py");
                             ("message", JStr "SyntaxError: Expected an expression")]]))
    = Raise e
    /\ RuffAnalyzer.analyze_directory int_only (fun _ => "not iterable") "repo"
         (Completed "[...]")
         (Loaded (JList [sample_issue (JStr "Line too long (120 > 88)");
                         JDict [("code", JNull); ("filename", JStr "src/app.py");
                                ("message", JStr "SyntaxError: Expected an expression")]]))
       = [mkFinding BUG HIGH (mkLocation "repo" None None None None)
            ("Failed to run ruff: " +:+ (fun _ : exn => "not iterable") e)
            (Some "RUFF002") false].
Proof.
  apply (one_rejected_issue_loses_all int_only (fun _ => "not iterable") "repo" "[...]").
  - discriminate.
  - exists (JDict [("code", JNull); ("filename", JStr "src/app.py");
                   ("message", JStr "SyntaxError: Expected an expression")]), TypeError.
    split; [|reflexivity]. apply list_elem_of_further, list_elem_of_here.
Defined.

End FurtherRuff.

(** ** Further properties: the type-checker adapter *)

Section FurtherMypy.
Import Re MypyAnalyzer MatchedNumbers.

Lemma int_digits_lower_bound (w : string) : forall acc n,
  0 <= acc -> int_digits acc w = Some n -> 0 <= n.
Proof.
  induction w as [|c w IH]; intros acc n Hacc Hn; simpl in Hn.
  - by injection Hn as <-.
  - destruct (is_digit c) eqn:Hc; [|discriminate].
    refine (IH _ _ _ Hn).
    unfold is_digit, between in Hc. apply andb_prop in Hc as [Hlo _].
    apply N.leb_le in Hlo. lia.
Qed.

Lemma pattern_group_texts (pv : option ascii) (s : string) (m : mstate) :
  match_at pattern pv s = Some m ->
  exists c0 w0 c1 w1 c2 w2 c3 w3,
    groupdict m "file" = Some (String c0 w0)
    /\ all_chars (is_not ":") (String c0 w0) = true
    /\ groupdict m "line" = Some (String c1 w1)
    /\ all_chars is_digit (String c1 w1) = true
    /\ groupdict m "col" = Some (String c2 w2)
    /\ all_chars is_digit (String c2 w2) = true
    /\ groupdict m "message" = Some (String c3 w3)
    /\ all_chars is_dot (String c3 w3) = true.
Proof.
  unfold match_at. intros Hrun.
  apply exec_sound in Hrun as (st' & Hreach & [= ->]).
  simpl in Hreach.
  repeat match goal with
  | H : exists _, _ |- _ => destruct H
  | H : _ /\ _ |- _ => destruct H
  | H : _ \/ _ |- _ => destruct H
  end.
  all: repeat match goal with
  | H : rest ?a = String ?c (?w +:+ rest ?b), G : groups ?b = groups ?a |- _ =>
      let Hrun := fresh "Hrun" in
      pose proof (consumed_run c w a b H) as Hrun;
      rewrite Hrun, G in *; clear H G Hrun
  end.
  all: subst; simpl in *.
  all: try match goal with H : groups _ = _ |- _ => rewrite H end.
  all: unfold groupdict; simpl.
  all: do 8 eexists; repeat split; try reflexivity.
  all: apply andb_true_intro; split; assumption.
Qed.

Lemma convert_match_shape (pv : option ascii) (s : string) (m : mstate)
    (f : Finding) :
  match_at pattern pv s = Some m ->
  _convert_mypy_match (groupdict m) = Ok f ->
  file (location f) <> ""
  /\ all_chars (is_not ":") (file (location f)) = true
  /\ all_chars is_dot (message f) = true
  /\ (exists l c, line (location f) = Some l /\ column (location f) = Some c
                  /\ 0 <= l /\ 0 <= c)
  /\ end_line (location f) = None
  /\ function (location f) = None
  /\ fix_available f = false.
Proof.
  intros Hm.
  destruct (pattern_group_texts pv s m Hm)
    as (c0 & w0 & c1 & w1 & c2 & w2 & c3 & w3
        & Hfile & Hf & Hline & Hd1 & Hcol & Hd2 & Hmsg & Hmm).
  unfold _convert_mypy_match. rewrite Hfile, Hline, Hcol, Hmsg.
  destruct (int_digits_ok _ 0 Hd1) as (n1 & Hn1).
  destruct (int_digits_ok _ 0 Hd2) as (n2 & Hn2).
  unfold int_. rewrite Hn1, Hn2.
  destruct (within_digit_limit (String c1 w1)); [|discriminate].
  destruct (within_digit_limit (String c2 w2)); [|discriminate].
  simpl. intros [= <-]. simpl.
  split; [discriminate|]. split; [exact Hf|]. split; [exact Hmm|].
  split; [|done]. exists n1, n2. repeat split.
  - by apply (int_digits_lower_bound (String c1 w1) 0 n1).
  - by apply (int_digits_lower_bound (String c2 w2) 0 n2).
Qed.

(** X16: The shape of what the parser returns: every finding has a file
    name that is not empty and holds no colon (a path with a drive
    letter is never matched whole), a message without a line feed, a
    line and a column that are present and not negative, no end line
    and no function, and is not marked fixable.  The parser returns
    exactly when the line and the column of every match have at most
    4300 digits; an exception that it raises is a [ValueError]. *)
Theorem mypy_findings_shape (output : string) :
  match _parse_mypy_output output with
  | Ok findings =>
      forallb numbers_within_limit (finditer pattern output) = true
      /\ Forall (fun f =>
           file (location f) <> ""
           /\ all_chars (is_not ":") (file (location f)) = true
           /\ all_chars is_dot (message f) = true
           /\ (exists l c, line (location f) = Some l /\ column (location f) = Some c
                           /\ 0 <= l /\ 0 <= c)
           /\ end_line (location f) = None
           /\ function (location f) = None
           /\ fix_available f = false) findings
  | Raise e =>
      e = ValueError
      /\ forallb numbers_within_limit (finditer pattern output) = false
  end.
Proof.
  destruct (_parse_mypy_output output) as [findings|e] eqn:Hparse.
  - split.
    + pose proof (parse_mypy_output_cases output) as Hcases.
      destruct (forallb _ _); [reflexivity|congruence].
    + revert Hparse. unfold _parse_mypy_output. apply for_each_Forall.
      intros m f Hin. apply scan_matches in Hin as (pv & s & Hm).
      by apply (convert_match_shape pv s).
  - by apply parse_mypy_output_raises.
Qed.

(** X17: When the type checker completes, the adapter returns the findings
    of the parser if the line and the column of every match have at
    most 4300 digits; if one has more, the parser raises and the
    adapter returns the single finding of rule MYPY002, so that every
    diagnostic of the run is lost.  A line number of 4300 digits is
    converted, one of 4301 digits is not.  Empty output gives no
    finding. *)
Theorem mypy_completed_run_findings
    (str_exn : exn -> string) (directory stdout : string) :
  (if forallb numbers_within_limit (finditer pattern stdout)
   then _parse_mypy_output stdout
        = Ok (MypyAnalyzer.analyze_directory str_exn directory (Completed stdout))
   else MypyAnalyzer.analyze_directory str_exn directory (Completed stdout)
        = [failed_to_run (str_exn ValueError) directory])
  /\ forallb numbers_within_limit
       (finditer pattern (diagnostic_with_digits 4300)) = true
  /\ MypyAnalyzer.analyze_directory str_exn directory
       (Completed (diagnostic_with_digits 4301))
     = [failed_to_run (str_exn ValueError) directory]
  /\ MypyAnalyzer.analyze_directory str_exn directory (Completed "") = [].
Proof.
  assert (Hgeneral : forall out,
    if forallb numbers_within_limit (finditer pattern out)
    then _parse_mypy_output out
         = Ok (MypyAnalyzer.analyze_directory str_exn directory (Completed out))
    else MypyAnalyzer.analyze_directory str_exn directory (Completed out)
         = [failed_to_run (str_exn ValueError) directory]).
  { intros out. unfold MypyAnalyzer.analyze_directory.
    destruct (decide (out = "")) as [->|Hout]; [reflexivity|].
    pose proof (parse_mypy_output_cases out) as Hcases.
    destruct (forallb _ _).
    - by destruct Hcases as (findings & ->).
    - by rewrite Hcases. }
  split; [apply Hgeneral|]. split; [by vm_compute|]. split; [|reflexivity].
  pose proof (Hgeneral (diagnostic_with_digits 4301)) as Hlong.
  assert (Hfalse : forallb numbers_within_limit
                     (finditer pattern (diagnostic_with_digits 4301)) = false)
    by (by vm_compute).
  by rewrite Hfalse in Hlong.
Qed.

End FurtherMypy.

(** ** Further properties: the repository metrics *)

Section FurtherGit.
Import GitRepoAnalyzer ChangeCounts.

Lemma tally_of_bump (key k : string) (counter : list (string * nat)) :
  tally_of k (bump key counter)
  = if String.eqb key k then S (tally_of k counter) else tally_of k counter.
Proof.
  induction counter as [|[k' n] counter IH]; simpl.
  - destruct (String.eqb key k); reflexivity.
  - destruct (String.eqb_spec k' key) as [->|Hne]; simpl.
    + destruct (String.eqb key k); reflexivity.
    + rewrite IH. destruct (String.eqb_spec k' k) as [->|]; [|reflexivity].
      destruct (String.eqb_spec key k) as [->|]; [done|reflexivity].
Qed.

Lemma bump_keys (key : string) (counter : list (string * nat)) :
  map fst (bump key counter)
  = if bool_decide (key ∈ map fst counter) then map fst counter
    else map fst counter ++ [key].
Proof.
  induction counter as [|[k' n] counter IH]; simpl; [reflexivity|].
  destruct (String.eqb_spec k' key) as [->|Hne]; simpl.
  - rewrite bool_decide_eq_true_2; [reflexivity|apply list_elem_of_here].
  - rewrite IH. destruct (decide (key ∈ map fst counter)) as [Hin|Hout].
    + rewrite !bool_decide_eq_true_2; [reflexivity| |exact Hin].
      by apply list_elem_of_further.
    + rewrite !bool_decide_eq_false_2; [reflexivity| |exact Hout].
      intros [?|?]%elem_of_cons; congruence.
Qed.

Lemma bump_keys_NoDup (key : string) (counter : list (string * nat)) :
  NoDup (map fst counter) -> NoDup (map fst (bump key counter)).
Proof.
  intros Hnd. rewrite bump_keys.
  destruct (decide (key ∈ map fst counter)) as [Hin|Hout].
  - by rewrite bool_decide_eq_true_2.
  - rewrite bool_decide_eq_false_2 by exact Hout.
    apply NoDup_app. split; [exact Hnd|]. split.
    + intros x Hx Hx'. apply list_elem_of_singleton in Hx' as ->. contradiction.
    + apply NoDup_singleton.
Qed.

Lemma bump_all (files : list string) : forall counter,
  let counter' := foldl (fun counter item => bump item counter) counter files in
  (NoDup (map fst counter) -> NoDup (map fst counter'))
  /\ (forall k, tally_of k counter'
               = (tally_of k counter
                  + length (List.filter (fun x => String.eqb x k) files))%nat).
Proof.
  induction files as [|f files IH]; intros counter; simpl.
  - split; [done|]. intros k. lia.
  - destruct (IH (bump f counter)) as [IHnd IHt]. split.
    + intros Hnd. by apply IHnd, bump_keys_NoDup.
    + intros k. rewrite IHt, tally_of_bump.
      destruct (String.eqb f k); simpl; lia.
Qed.

Lemma count_commits (cs : list commit) : forall counter,
  let counter' :=
    foldl (fun counter c =>
             match stats_files c with
             | Some files => foldl (fun counter item => bump item counter) counter files
             | None => counter
             end) counter cs in
  (NoDup (map fst counter) -> NoDup (map fst counter'))
  /\ (forall k, tally_of k counter'
               = (tally_of k counter
                  + length (List.filter (fun x => String.eqb x k)
                              (flat_map (fun c => default [] (stats_files c)) cs)))%nat).
Proof.
  induction cs as [|c cs IH]; intros counter; simpl.
  - split; [done|]. intros k. lia.
  - destruct (stats_files c) as [files|]; simpl.
    + destruct (IH (foldl (fun counter item => bump item counter) counter files))
        as [IHnd IHt].
      destruct (bump_all files counter) as [Hnd Ht]. split.
      * intros Hc. by apply IHnd, Hnd.
      * intros k. rewrite IHt, Ht, List.filter_app, length_app. lia.
    + apply IH.
Qed.

Lemma count_changes_counts (cs : list commit) :
  NoDup (map fst (count_changes cs))
  /\ forall k, tally_of k (count_changes cs) = times_changed k cs.
Proof.
  unfold count_changes, times_changed, changed_files.
  destruct (count_commits (take 1000 cs) []) as [Hnd Ht]. split.
  - apply Hnd. constructor.
  - intros k. by rewrite Ht.
Qed.

Lemma entry_tally (counter : list (string * nat)) (k : string) (n : nat) :
  NoDup (map fst counter) -> (k, n) ∈ counter -> tally_of k counter = n.
Proof.
  induction counter as [|[k' n'] counter IH]; intros Hnd Hin;
    [by apply elem_of_nil in Hin|].
  simpl in *. apply NoDup_cons in Hnd as [Hk' Hnd].
  apply elem_of_cons in Hin as [[= -> ->]|Hin].
  - by rewrite String.eqb_refl.
  - destruct (String.eqb_spec k' k) as [->|]; [|by apply IH].
    exfalso. apply Hk'. apply list_elem_of_In, in_map_iff.
    exists (k, n). split; [reflexivity|by apply list_elem_of_In].
Qed.

Lemma insert_by_count_perm (x : string * nat) (l : list (string * nat)) :
  insert_by_count x l ≡ₚ x :: l.
Proof.
  induction l as [|y l IH]; simpl; [reflexivity|].
  destruct (snd y <=? snd x)%nat; [reflexivity|].
  rewrite IH. apply perm_swap.
Qed.

Lemma sort_by_count_perm (l : list (string * nat)) : sort_by_count l ≡ₚ l.
Proof.
  unfold sort_by_count. induction l as [|x l IH]; simpl; [reflexivity|].
  by rewrite insert_by_count_perm, IH.
Qed.

Lemma insert_by_count_sorted (x : string * nat) (l : list (string * nat)) :
  StronglySorted (fun a b => (snd b <= snd a)%nat) l ->
  StronglySorted (fun a b => (snd b <= snd a)%nat) (insert_by_count x l).
Proof.
  induction 1 as [|y l Hl IH Hy]; simpl.
  - repeat constructor.
  - destruct (Nat.leb_spec (snd y) (snd x)).
    + constructor; [by constructor|]. constructor; [assumption|].
      eapply Forall_impl; [exact Hy|]. simpl. intros. lia.
    + constructor; [exact IH|].
      rewrite (insert_by_count_perm x l). constructor; [lia|exact Hy].
Qed.

Lemma sort_by_count_sorted (l : list (string * nat)) :
  StronglySorted (fun a b => (snd b <= snd a)%nat) (sort_by_count l).
Proof.
  unfold sort_by_count. induction l as [|x l IH]; simpl; [constructor|].
  by apply insert_by_count_sorted.
Qed.

Lemma StronglySorted_sublist {A} (R : relation A) (l1 l2 : list A) :
  l1 `sublist_of` l2 -> StronglySorted R l2 -> StronglySorted R l1.
Proof.
  induction 1 as [|x l1 l2 Hsub IH|x l1 l2 Hsub IH]; intros Hs.
  - constructor.
  - apply StronglySorted_inv in Hs as [Hs Hx]. constructor; [by apply IH|].
    apply Forall_forall. intros y Hy. eapply Forall_forall; [exact Hx|].
    eapply elem_of_sublist; eassumption.
  - apply StronglySorted_inv in Hs as [Hs _]. by apply IH.
Qed.

Lemma filter_sublist {A} (p : A -> bool) (l : list A) :
  List.filter p l `sublist_of` l.
Proof.
  induction l as [|x l IH]; simpl; [constructor|].
  destruct (p x); by constructor.
Qed.

Lemma map_sublist {A B} (f : A -> B) (l1 l2 : list A) :
  l1 `sublist_of` l2 -> map f l1 `sublist_of` map f l2.
Proof. induction 1; simpl; by constructor. Qed.

Lemma map_StronglySorted {A B} (f : A -> B) (R : relation B) (l : list A) :
  StronglySorted (fun a b => R (f a) (f b)) l -> StronglySorted R (map f l).
Proof.
  induction 1 as [|x l Hl IH Hx]; simpl; constructor; [exact IH|].
  apply Forall_forall. intros y [z [<- Hz]]%list_elem_of_In%in_map_iff.
  rewrite Forall_forall in Hx. by apply Hx, list_elem_of_In.
Qed.

Lemma StronglySorted_impl_in {A} (R R' : relation A) (l : list A) :
  (forall a b, a ∈ l -> b ∈ l -> R a b -> R' a b) ->
  StronglySorted R l -> StronglySorted R' l.
Proof.
  intros HR. induction 1 as [|x l Hl IH Hx]; constructor.
  - apply IH. intros a b Ha Hb. apply HR; by apply list_elem_of_further.
  - apply Forall_forall. intros y Hy. rewrite Forall_forall in Hx.
    apply HR; [apply list_elem_of_here|by apply list_elem_of_further|by apply Hx].
Qed.

Lemma bump_positive (key : string) (counter : list (string * nat)) :
  Forall (fun e => (0 < snd e)%nat) counter ->
  Forall (fun e => (0 < snd e)%nat) (bump key counter).
Proof.
  induction 1 as [|[k n] counter Hk Hc IH]; simpl.
  - constructor; [simpl; lia|constructor].
  - destruct (String.eqb k key); constructor; simpl in *; auto; lia.
Qed.

Lemma count_changes_positive (cs : list commit) :
  Forall (fun e => (0 < snd e)%nat) (count_changes cs).
Proof.
  unfold count_changes.
  assert (H : Forall (fun e : string * nat => (0 < snd e)%nat) []) by constructor.
  revert H. generalize (@nil (string * nat)) as counter.
  induction (take 1000 cs) as [|c l IH]; intros counter Hc; simpl; [exact Hc|].
  apply IH. destruct (stats_files c) as [files|]; [|exact Hc].
  revert counter Hc. induction files as [|f files IHf]; intros counter Hc; simpl;
    [exact Hc|].
  by apply IHf, bump_positive.
Qed.

Lemma filter_all {A} (p : A -> bool) (l : list A) :
  Forall (fun x => p x = true) l -> List.filter p l = l.
Proof.
  induction 1 as [|x l Hx Hl IH]; simpl; [reflexivity|].
  by rewrite Hx, IH.
Qed.

Lemma tally_entry (counter : list (string * nat)) (k : string) :
  (0 < tally_of k counter)%nat -> (k, tally_of k counter) ∈ counter.
Proof.
  induction counter as [|[k' n] counter IH]; simpl; [lia|].
  destruct (String.eqb_spec k' k) as [->|]; intros Hpos.
  - apply list_elem_of_here.
  - by apply list_elem_of_further, IH.
Qed.

(** The entries that [most_common(20)] returns and that pass the
    threshold: a sublist of the sorted counter. *)
Lemma hot_entries_sublist (t : nat) (cs : list commit) :
  List.filter (fun fc => (t <=? snd fc)%nat) (most_common 20 (count_changes cs))
  `sublist_of` sort_by_count (count_changes cs).
Proof.
  etrans; [apply filter_sublist|]. apply sublist_take.
Qed.

Lemma sorted_entry (cs : list commit) (e : string * nat) :
  e ∈ sort_by_count (count_changes cs) -> snd e = times_changed (fst e) cs.
Proof.
  intros He. rewrite sort_by_count_perm in He.
  destruct (count_changes_counts cs) as [Hnd Ht]. destruct e as [k n]. simpl.
  rewrite <- Ht. symmetry. by apply entry_tally.
Qed.

(** X18: the hot spots are at most 20 distinct files, each changed at
    least [hot_spot_threshold] times in the readable commits among the
    newest 1000, listed from the most changed to the least changed. *)
Theorem hot_spots_are_frequent_and_ranked (hot_spot_threshold : nat)
    (cs : list commit) :
  let hot_spots := find_hot_spots hot_spot_threshold cs in
  (length hot_spots <= 20)%nat
  /\ NoDup hot_spots
  /\ Forall (fun file => (hot_spot_threshold <= times_changed file cs)%nat
                         /\ (0 < times_changed file cs)%nat) hot_spots
  /\ StronglySorted
       (fun a b => (times_changed b cs <= times_changed a cs)%nat) hot_spots.
Proof.
  cbv zeta. unfold find_hot_spots.
  pose proof (hot_entries_sublist hot_spot_threshold cs) as Hsub.
  set (es := List.filter _ _) in *.
  assert (Hes : forall e, e ∈ es ->
            (hot_spot_threshold <= snd e)%nat
            /\ snd e = times_changed (fst e) cs).
  { intros e He. split.
    - apply list_elem_of_In, filter_In in He as [_ He]. by apply Nat.leb_le.
    - apply sorted_entry. eapply elem_of_sublist; eassumption. }
  split; [|split; [|split]].
  - rewrite length_map. etrans; [apply sublist_length, filter_sublist|].
    unfold most_common. rewrite length_take. lia.
  - eapply sublist_NoDup; [|apply map_sublist, Hsub].
    rewrite (sort_by_count_perm (count_changes cs)).
    apply (count_changes_counts cs).
  - apply Forall_forall. intros file [e [<- He]]%list_elem_of_In%in_map_iff.
    assert (Hpos : (0 < snd e)%nat).
    { pose proof (count_changes_positive cs) as Hp.
      rewrite <- (sort_by_count_perm (count_changes cs)) in Hp.
      rewrite Forall_forall in Hp. apply Hp.
      eapply elem_of_sublist; [by apply list_elem_of_In|exact Hsub]. }
    apply list_elem_of_In, Hes in He as [Ht Hn]. rewrite <- Hn.
    split; [exact Ht|]. exact Hpos.
  - apply map_StronglySorted.
    eapply StronglySorted_sublist; [exact Hsub|].
    eapply StronglySorted_impl_in; [|apply sort_by_count_sorted].
    simpl. intros a b Ha Hb Hab.
    by rewrite <- (sorted_entry cs a Ha), <- (sorted_entry cs b Hb).
Qed.

(** X19: a file that was changed at least [hot_spot_threshold] times and
    is no hot spot was crowded out: there are 20 hot spots then, and
    each of them changed at least as often. *)
Theorem missing_hot_spot_was_crowded_out (hot_spot_threshold : nat)
    (cs : list commit) (file : string) :
  (0 < times_changed file cs)%nat ->
  (hot_spot_threshold <= times_changed file cs)%nat ->
  file ∉ find_hot_spots hot_spot_threshold cs ->
  length (find_hot_spots hot_spot_threshold cs) = 20%nat
  /\ Forall (fun other => (times_changed file cs <= times_changed other cs)%nat)
       (find_hot_spots hot_spot_threshold cs).
Proof.
  intros Hpos Ht Hout. unfold find_hot_spots, most_common in *.
  destruct (count_changes_counts cs) as [Hnd Htally].
  set (sorted := sort_by_count (count_changes cs)) in *.
  assert (Hin : (file, times_changed file cs) ∈ sorted).
  { unfold sorted. rewrite sort_by_count_perm, <- Htally.
    apply tally_entry. by rewrite Htally. }
  rewrite <- (take_drop 20 sorted) in Hin.
  apply elem_of_app in Hin as [Hin|Hin].
  { exfalso. apply Hout. apply list_elem_of_In, in_map_iff.
    exists (file, times_changed file cs). split; [reflexivity|].
    apply filter_In. split; [by apply list_elem_of_In|]. by apply Nat.leb_le. }
  pose proof (sort_by_count_sorted (count_changes cs)) as Hs.
  fold sorted in Hs. rewrite <- (take_drop 20 sorted) in Hs.
  assert (Hall : Forall (fun e => (times_changed file cs <= snd e)%nat)
                   (take 20 sorted)).
  { apply Forall_forall. intros e He.
    apply (StronglySorted_app_1_elem_of _ _ _ e (file, times_changed file cs) Hs He Hin). }
  rewrite filter_all.
  2:{ eapply Forall_impl; [exact Hall|]. simpl. intros e He.
      apply Nat.leb_le. lia. }
  split.
  - rewrite length_map, length_take.
    assert (length sorted <= 20 -> False)%nat; [|lia].
    intros Hle. rewrite drop_ge in Hin by exact Hle. by apply elem_of_nil in Hin.
  - apply Forall_forall. intros other [e [<- He]]%list_elem_of_In%in_map_iff.
    apply list_elem_of_In in He.
    rewrite <- (sorted_entry cs e).
    + rewrite Forall_forall in Hall. by apply Hall.
    + eapply elem_of_sublist; [exact He|apply sublist_take].
Qed.

Lemma missing_hot_spot_was_crowded_out_witness :
  length (find_hot_spots 1 crowded_commits) = 20%nat
  /\ Forall (fun other => (times_changed "u" crowded_commits
                           <= times_changed other crowded_commits)%nat)
       (find_hot_spots 1 crowded_commits).
Proof.
  apply (missing_hot_spot_was_crowded_out 1 crowded_commits "u").
  - vm_compute. lia.
  - vm_compute. lia.
  - apply (bool_decide_unpack _). vm_compute. reflexivity.
Defined.

Lemma contributors_from (cs : list commit) : forall acc : gset string,
  foldl (fun acc c =>
           match author_email c with
           | Some email => acc ∪ {[email]}
           | None => acc
           end) acc cs
  = acc ∪ list_to_set (omap author_email cs).
Proof.
  induction cs as [|c cs IH]; intros acc; csimpl.
  - by rewrite (right_id_L ∅ (∪)).
  - rewrite IH. destruct (author_email c) as [email|]; csimpl; [|reflexivity].
    by rewrite (assoc_L (∪)).
Qed.

Lemma omap_length_le {A B} (f : A -> option B) (l : list A) :
  (length (omap f l) <= length l)%nat.
Proof.
  induction l as [|x l IH]; csimpl; [lia|].
  destruct (f x); csimpl; lia.
Qed.

(** X20: a repository without commits gives no metrics: [analyze] raises
    [ValueError] and [analyze_git_repo] returns [None].  Metrics that
    are returned count at least one commit, and as contributors the
    distinct author e-mail addresses of the commits that have an
    author, so never more contributors than commits; the date is the
    one of the newest commit. *)
Theorem contributors_are_distinct_authors (hot_spot_threshold : nat)
    (repo : repository) :
  match analyze hot_spot_threshold repo with
  | Ok metrics =>
      commits repo <> []
      /\ total_commits metrics = Z.of_nat (length (commits repo))
      /\ 1 <= total_commits metrics
      /\ total_contributors metrics
         = Z.of_nat (length (remove_dups (omap author_email (commits repo))))
      /\ 0 <= total_contributors metrics <= total_commits metrics
      /\ last_commit_date metrics = newest_date repo
  | Raise e => e = ValueError /\ commits repo = []
  end
  /\ (analyze_git_repo (Some repo) = None <-> commits repo = []).
Proof.
  assert (Hsize : size (contributors (commits repo))
                  = length (remove_dups (omap author_email (commits repo)))).
  { unfold contributors. rewrite contributors_from, <- size_list_to_set_distinct.
    by rewrite (left_id_L ∅ (∪)). }
  pose proof (remove_dups_length_le (omap author_email (commits repo))) as Hdups.
  pose proof (omap_length_le author_email (commits repo)) as Homap.
  unfold analyze_git_repo, analyze.
  destruct (commits repo) as [|c cs] eqn:Hcommits.
  - split; [by split|]. by split.
  - cbn [total_commits total_contributors last_commit_date].
    rewrite Hsize. split; [|split; [discriminate|done]].
    split; [done|]. split; [reflexivity|]. simpl length in *.
    split; [lia|]. split; [reflexivity|]. split; [lia|reflexivity].
Qed.

Lemma large_files_all (t : nat) (files : list repo_file) (entry : string) :
  entry ∈ flat_map (fun f =>
      if rf_skipped f then []
      else
        match rf_lines f with
        | Some lines_ =>
            if (t <? lines_)%nat then
              [rf_rel_path f +:+ " (" +:+ pretty lines_ +:+ " lines)"]
            else []
        | None => []
        end) files
  <-> exists f n, f ∈ files /\ rf_skipped f = false /\ rf_lines f = Some n
                  /\ (t < n)%nat
                  /\ entry = rf_rel_path f +:+ " (" +:+ pretty n +:+ " lines)".
Proof.
  rewrite list_elem_of_In, in_flat_map. split.
  - intros [f [Hf He]]. apply list_elem_of_In in Hf.
    destruct (rf_skipped f) eqn:Hs; [destruct He|].
    destruct (rf_lines f) as [n|] eqn:Hl; [|destruct He].
    destruct (Nat.ltb_spec t n); [|destruct He].
    destruct He as [<-|[]]. by exists f, n.
  - intros (f & n & Hf & Hs & Hl & Hn & ->). exists f.
    split; [by apply list_elem_of_In|].
    rewrite Hs, Hl. apply Nat.ltb_lt in Hn. rewrite Hn. by left.
Qed.

(** X21: the large files are at most 20 entries, each the relative path
    and the line count of a readable file outside hidden and excluded
    directories that has more than [size_threshold] lines; such a file
    is left out only when 20 entries are reported. *)
Theorem large_files_are_large (size_threshold : nat) (files : list repo_file) :
  let large_files := _find_large_files size_threshold files in
  (length large_files <= 20)%nat
  /\ Forall (fun entry =>
       exists f n, f ∈ files /\ rf_skipped f = false /\ rf_lines f = Some n
                   /\ (size_threshold < n)%nat
                   /\ entry = rf_rel_path f +:+ " (" +:+ pretty n +:+ " lines)")
       large_files
  /\ forall f n, f ∈ files -> rf_skipped f = false -> rf_lines f = Some n ->
       (size_threshold < n)%nat ->
       rf_rel_path f +:+ " (" +:+ pretty n +:+ " lines)" ∈ large_files
       \/ length large_files = 20%nat.
Proof.
  cbv zeta. unfold _find_large_files.
  set (all := flat_map _ files).
  split; [rewrite length_take; lia|]. split.
  - apply Forall_forall. intros entry He.
    apply (large_files_all size_threshold files entry).
    eapply elem_of_sublist; [exact He|apply sublist_take].
  - intros f n Hf Hs Hl Hn.
    destruct (le_lt_dec (length all) 20) as [Hle|Hgt].
    + left. rewrite take_ge by exact Hle.
      apply large_files_all. by exists f, n.
    + right. rewrite length_take. lia.
Qed.

End FurtherGit.
